(** * devops-tui: the OAuth device-flow authenticator (package [auth])

    A shallow embedding of [internal/auth]: the token cache file, the
    refresh exchange, the device-code exchange and the poll loop, together
    with the properties of [GetToken], [ClearCache] and [HasCachedToken].

    Modelling conventions.
    - Go's [int] and [time.Duration] are 64-bit signed integers; they are
      values of [Z] and every arithmetic operation the source performs on
      them is followed by the two's-complement wrap-around [Int64.wrap].
    - A [time.Time] is an instant, counted in nanoseconds from the zero
      [Time]; [Add] and [Before] are exact on instants.
    - The process runs against an environment [Env] that it cannot change
      (the answers of the HTTP endpoints, indexed by the number of the
      call, and whether the cache directory and file can be created,
      written and removed) and a [World] that it reads and writes (clock,
      cache file, trace of effects).  The clock advances while the
      process sleeps and while it waits for an HTTP exchange, which takes
      at least one nanosecond.
    - The loop of [pollForToken] takes fuel: a bound on the number of
      times its condition is evaluated.  A run that uses it up has no
      result, and its trace is the trace so far.
    - JSON texts are represented by the document they denote; the
      RFC 3339 rendering of [time.Time] inside a JSON string is an
      interface ([TimeCodec]).
    - Console output is kept only where a property speaks about it: the
      sign-in prompt, the attempt to open the browser and the warnings
      written to standard error. *)

From Stdlib Require Import ZArith List String Ascii Bool Lia.
From Stdlib Require Import DecimalString DecimalZ.
Import ListNotations.

Set Warnings "-register-all".
Local Open Scope Z_scope.

(** ** 64-bit integers *)

Module Int64.

Definition min_int : Z := - 2 ^ 63.
Definition max_int : Z := 2 ^ 63 - 1.

Definition in_range (z : Z) : bool := (min_int <=? z) && (z <=? max_int).

(** Two's-complement reduction of an exact result to 64 bits. *)
Definition wrap (z : Z) : Z := (z + 2 ^ 63) mod 2 ^ 64 - 2 ^ 63.

Definition add (a b : Z) : Z := wrap (a + b).
Definition mul (a b : Z) : Z := wrap (a * b).

End Int64.

(** ** time.Duration and time.Time *)

Definition Duration := Z.
Definition Time := Z.

Definition Second : Duration := 1000000000.
Definition Minute : Duration := 60 * Second.

(** [t.Add(d)] and [t.Before(u)]. *)
Definition Add (t : Time) (d : Duration) : Time := t + d.
Definition Before (t u : Time) : bool := t <? u.

(** The zero value of [time.Time]. *)
Definition zeroTime : Time := 0.

(** ** JSON documents *)

(** A number literal either has integer syntax or it does not (a fraction
    or an exponent); only the former decodes into a Go [int]. *)
Inductive jnum : Type :=
| NInt (z : Z)
| NReal.

Inductive json : Type :=
| JNull
| JBool (b : bool)
| JNum (n : jnum)
| JStr (s : string)
| JArr (items : list json)
| JObj (fields : list (string * json)).

(** The bytes of a file or of a response body: either they do not start
    with a JSON value, or they hold one value, possibly followed by other
    non-blank data.  [json.Unmarshal] rejects trailing data, a
    [json.Decoder] stops after the first value. *)
Inductive bytes : Type :=
| NotJSON
| JSONText (v : json) (trailing : bool).

(** [time.Time] implements [json.Marshaler] and [json.Unmarshaler]: the
    instant is written as an RFC 3339 string, and writing fails for years
    outside 0..9999. *)
Class TimeCodec : Type := {
  marshalTime : Time -> option string;
  unmarshalTime : string -> option Time
}.

(** Reading back what was written gives the instant that was written. *)
Definition codec_roundtrip (C : TimeCodec) : Prop :=
  forall t s, marshalTime t = Some s -> unmarshalTime s = Some t.

(** ** The data of the package *)

Definition DefaultClientID : string := "872cd9fa-d31f-45e0-9eab-6e460a02d1f1".
Definition AzureDevOpsScope : string :=
  "499b84ac-1321-427f-aa17-267ca6975798/user_impersonation offline_access".

Definition StatusOK : Z := 200.

Record DeviceCodeResponse : Type := {
  DeviceCode : string;
  UserCode : string;
  VerificationURI : string;
  dcExpiresIn : Z;
  Interval : Z;
  Message : string
}.

Record TokenResponse : Type := {
  trAccessToken : string;
  TokenType : string;
  ExpiresIn : Z;
  trRefreshToken : string;
  Scope : string
}.

Record TokenCache : Type := {
  AccessToken : string;
  RefreshToken : string;
  ExpiresAt : Time
}.

Record TokenError : Type := {
  Error : string;
  ErrorDescription : string
}.

Record DeviceFlowAuthenticator : Type := {
  clientID : string
}.

Definition NewDeviceFlowAuthenticator : DeviceFlowAuthenticator :=
  {| clientID := DefaultClientID |}.

(** ** Errors *)

Inductive error : Type :=
| ErrNotExist                              (* os: the file does not exist *)
| ErrPermission                            (* os: any other failure of a file operation *)
| ErrJSON                                  (* encoding/json, including a time that cannot be written or read *)
| ErrNet                                   (* net/http: the exchange did not complete *)
| ErrNew (msg : string)                    (* errors.New, fmt.Errorf without %w *)
| ErrBody (prefix : string) (body : option bytes) (* fmt.Errorf("...%s", string(body)) *)
| ErrWrap (prefix : string) (cause : error).      (* fmt.Errorf("...%w", err) *)

(** A Go result pair [(v, err)]: either the value with a nil error, or the
    error. *)
Inductive result (A : Type) : Type :=
| Ok (a : A)
| Err (e : error).
Arguments Ok {A} a.
Arguments Err {A} e.

Definition IsNotExist (e : option error) : bool :=
  match e with
  | Some ErrNotExist => true
  | _ => false
  end.

(** ** Decoding JSON objects into structs *)

Definition lowerAscii (c : ascii) : ascii :=
  let n := nat_of_ascii c in
  if (Nat.leb 65 n && Nat.leb n 90)%bool then ascii_of_nat (n + 32) else c.

Fixpoint lower (s : string) : string :=
  match s with
  | EmptyString => EmptyString
  | String c r => String (lowerAscii c) (lower r)
  end.

(** A key of the object selects the field whose tag it equals up to the
    case of its letters. *)
Definition equalFold (k tag : string) : bool := String.eqb (lower k) (lower tag).

(** Decoding a value into a field of type string, int or time.Time.
    [null] leaves the field as it is; a value of another kind is an
    error. *)
Definition decodeString (v : json) (old : string) : option string :=
  match v with
  | JStr s => Some s
  | JNull => Some old
  | _ => None
  end.

Definition decodeInt (v : json) (old : Z) : option Z :=
  match v with
  | JNum (NInt z) => if Int64.in_range z then Some z else None
  | JNull => Some old
  | _ => None
  end.

Definition decodeTime {C : TimeCodec} (v : json) (old : Time) : option Time :=
  match v with
  | JStr s => unmarshalTime s
  | JNull => Some old
  | _ => None
  end.

Section Decode.
Context {T : Type}.
Variable set : string -> json -> T -> option T.

(** The members of the object are taken in order, so that of two
    members with the same key the later one wins. *)
Fixpoint decodeFields (fs : list (string * json)) (acc : T) : option T :=
  match fs with
  | [] => Some acc
  | (k, v) :: rest =>
      match set k v acc with
      | Some acc' => decodeFields rest acc'
      | None => None
      end
  end.

Definition decodeValue (zero : T) (v : json) : option T :=
  match v with
  | JObj fs => decodeFields fs zero
  | JNull => Some zero
  | _ => None
  end.

(** [json.Unmarshal(data, &x)] on a zero [x]. *)
Definition Unmarshal (zero : T) (data : bytes) : option T :=
  match data with
  | JSONText v false => decodeValue zero v
  | _ => None
  end.

(** [json.NewDecoder(body).Decode(&x)] on a zero [x]; a body that cannot
    be read to the end of its first value has no value. *)
Definition Decode (zero : T) (body : option bytes) : option T :=
  match body with
  | Some (JSONText v _) => decodeValue zero v
  | _ => None
  end.
End Decode.

Definition setTokenError (k : string) (v : json) (e : TokenError) : option TokenError :=
  if equalFold k "error" then
    option_map (fun s => {| Error := s; ErrorDescription := ErrorDescription e |})
               (decodeString v (Error e))
  else if equalFold k "error_description" then
    option_map (fun s => {| Error := Error e; ErrorDescription := s |})
               (decodeString v (ErrorDescription e))
  else Some e.

Definition zeroTokenError : TokenError := {| Error := ""; ErrorDescription := "" |}.

Definition setTokenResponse (k : string) (v : json) (r : TokenResponse) : option TokenResponse :=
  if equalFold k "access_token" then
    option_map (fun s => {| trAccessToken := s; TokenType := TokenType r;
                            ExpiresIn := ExpiresIn r; trRefreshToken := trRefreshToken r;
                            Scope := Scope r |})
               (decodeString v (trAccessToken r))
  else if equalFold k "token_type" then
    option_map (fun s => {| trAccessToken := trAccessToken r; TokenType := s;
                            ExpiresIn := ExpiresIn r; trRefreshToken := trRefreshToken r;
                            Scope := Scope r |})
               (decodeString v (TokenType r))
  else if equalFold k "expires_in" then
    option_map (fun n => {| trAccessToken := trAccessToken r; TokenType := TokenType r;
                            ExpiresIn := n; trRefreshToken := trRefreshToken r;
                            Scope := Scope r |})
               (decodeInt v (ExpiresIn r))
  else if equalFold k "refresh_token" then
    option_map (fun s => {| trAccessToken := trAccessToken r; TokenType := TokenType r;
                            ExpiresIn := ExpiresIn r; trRefreshToken := s;
                            Scope := Scope r |})
               (decodeString v (trRefreshToken r))
  else if equalFold k "scope" then
    option_map (fun s => {| trAccessToken := trAccessToken r; TokenType := TokenType r;
                            ExpiresIn := ExpiresIn r; trRefreshToken := trRefreshToken r;
                            Scope := s |})
               (decodeString v (Scope r))
  else Some r.

Definition zeroTokenResponse : TokenResponse :=
  {| trAccessToken := ""; TokenType := ""; ExpiresIn := 0; trRefreshToken := ""; Scope := "" |}.

Definition setDeviceCode (k : string) (v : json) (d : DeviceCodeResponse)
  : option DeviceCodeResponse :=
  if equalFold k "device_code" then
    option_map (fun s => {| DeviceCode := s; UserCode := UserCode d;
                            VerificationURI := VerificationURI d;
                            dcExpiresIn := dcExpiresIn d; Interval := Interval d;
                            Message := Message d |})
               (decodeString v (DeviceCode d))
  else if equalFold k "user_code" then
    option_map (fun s => {| DeviceCode := DeviceCode d; UserCode := s;
                            VerificationURI := VerificationURI d;
                            dcExpiresIn := dcExpiresIn d; Interval := Interval d;
                            Message := Message d |})
               (decodeString v (UserCode d))
  else if equalFold k "verification_uri" then
    option_map (fun s => {| DeviceCode := DeviceCode d; UserCode := UserCode d;
                            VerificationURI := s;
                            dcExpiresIn := dcExpiresIn d; Interval := Interval d;
                            Message := Message d |})
               (decodeString v (VerificationURI d))
  else if equalFold k "expires_in" then
    option_map (fun n => {| DeviceCode := DeviceCode d; UserCode := UserCode d;
                            VerificationURI := VerificationURI d;
                            dcExpiresIn := n; Interval := Interval d;
                            Message := Message d |})
               (decodeInt v (dcExpiresIn d))
  else if equalFold k "interval" then
    option_map (fun n => {| DeviceCode := DeviceCode d; UserCode := UserCode d;
                            VerificationURI := VerificationURI d;
                            dcExpiresIn := dcExpiresIn d; Interval := n;
                            Message := Message d |})
               (decodeInt v (Interval d))
  else if equalFold k "message" then
    option_map (fun s => {| DeviceCode := DeviceCode d; UserCode := UserCode d;
                            VerificationURI := VerificationURI d;
                            dcExpiresIn := dcExpiresIn d; Interval := Interval d;
                            Message := s |})
               (decodeString v (Message d))
  else Some d.

Definition zeroDeviceCode : DeviceCodeResponse :=
  {| DeviceCode := ""; UserCode := ""; VerificationURI := "";
     dcExpiresIn := 0; Interval := 0; Message := "" |}.

Definition setTokenCache {C : TimeCodec} (k : string) (v : json) (c : TokenCache)
  : option TokenCache :=
  if equalFold k "access_token" then
    option_map (fun s => {| AccessToken := s; RefreshToken := RefreshToken c;
                            ExpiresAt := ExpiresAt c |})
               (decodeString v (AccessToken c))
  else if equalFold k "refresh_token" then
    option_map (fun s => {| AccessToken := AccessToken c; RefreshToken := s;
                            ExpiresAt := ExpiresAt c |})
               (decodeString v (RefreshToken c))
  else if equalFold k "expires_at" then
    option_map (fun t => {| AccessToken := AccessToken c; RefreshToken := RefreshToken c;
                            ExpiresAt := t |})
               (decodeTime v (ExpiresAt c))
  else Some c.

Definition zeroTokenCache : TokenCache :=
  {| AccessToken := ""; RefreshToken := ""; ExpiresAt := zeroTime |}.

(** [json.MarshalIndent(cache, "", "  ")]: the three fields in the order of
    the struct. *)
Definition MarshalIndent {C : TimeCodec} (c : TokenCache) : option bytes :=
  match marshalTime (ExpiresAt c) with
  | Some s =>
      Some (JSONText (JObj [("access_token"%string, JStr (AccessToken c));
                            ("refresh_token"%string, JStr (RefreshToken c));
                            ("expires_at"%string, JStr s)]) false)
  | None => None
  end.

(** ** The environment and the world *)

(** One HTTP exchange: how long it takes on the wall clock, which is at
    least one tick of the nanosecond clock, and how it ends.  A response
    carries its status and its body; the body is [None] when reading it
    fails. *)
Inductive Reply : Type :=
| TransportError
| Response (status : Z) (body : option bytes).

Record Exchange : Type := {
  latency : positive;
  reply : Reply
}.

(** What the process cannot change: the answer to its [n]-th HTTP call,
    and whether the cache directory can be created, the cache file
    written, and the cache file removed. *)
Record Env : Type := {
  server : nat -> Exchange;
  mkdirOK : bool;
  writeOK : bool;
  removeOK : bool
}.

Inductive Request : Type :=
| DeviceCodeRequest (client_id scope : string)
| PollRequest (client_id device_code : string)
| RefreshRequest (client_id refresh_token scope : string).

Inductive Event : Type :=
| Sent (r : Request)
| Slept (d : Duration)
| Warned (e : error)
| Prompted (uri code : string)
| Browser (uri : string).

Record World : Type := {
  now : Time;
  cacheFile : option bytes;
  calls : nat;
  trace : list (Time * Event)
}.

(** ** Computations that read and write the world *)

Definition M (A : Type) : Type := World -> A * World.

Definition ret {A : Type} (a : A) : M A := fun w => (a, w).

Definition bind {A B : Type} (m : M A) (f : A -> M B) : M B :=
  fun w => let (a, w') := m w in f a w'.

Declare Scope go_scope.
Delimit Scope go_scope with go.
Notation "x <- m ;; k" := (bind m (fun x => k))
  (at level 61, m at next level, right associativity) : go_scope.
Notation "m ;; k" := (bind m (fun _ => k))
  (at level 61, right associativity) : go_scope.
Local Open Scope go_scope.

Definition emit (e : Event) : M unit :=
  fun w => (tt, {| now := now w; cacheFile := cacheFile w; calls := calls w;
                   trace := trace w ++ [(now w, e)] |}).

Definition advance (d : Duration) : M unit :=
  fun w => (tt, {| now := now w + Z.max 0 d; cacheFile := cacheFile w;
                   calls := calls w; trace := trace w |}).

(** [time.Now()]. *)
Definition timeNow : M Time := fun w => (now w, w).

(** [time.Sleep(d)]: returns at once when [d] is not positive. *)
Definition timeSleep (d : Duration) : M unit :=
  emit (Slept d) ;; advance d.

(** [a.httpClient.PostForm(endpoint, data)]. *)
Definition PostForm (env : Env) (r : Request) : M Reply :=
  emit (Sent r) ;;
  fun w =>
    let x := server env (calls w) in
    (reply x, {| now := now w + Z.pos (latency x); cacheFile := cacheFile w;
                 calls := S (calls w); trace := trace w |}).

(** [os.ReadFile(a.cacheFile)].  [loadCachedToken] returns whatever error
    it gets, so the one failure kept here is the missing file. *)
Definition ReadFile : M (result bytes) :=
  fun w => match cacheFile w with
           | Some data => (Ok data, w)
           | None => (Err ErrNotExist, w)
           end.

(** [os.MkdirAll(filepath.Dir(a.cacheFile), 0700)]. *)
Definition MkdirAll (env : Env) : M (option error) :=
  ret (if mkdirOK env then None else Some ErrPermission).

(** [os.WriteFile(a.cacheFile, data, 0600)]: the data replace the content
    of the file; a write that is refused leaves the file as it was. *)
Definition WriteFile (env : Env) (data : bytes) : M (option error) :=
  fun w => if writeOK env
           then (None, {| now := now w; cacheFile := Some data; calls := calls w;
                          trace := trace w |})
           else (Some ErrPermission, w).

(** [os.Remove(a.cacheFile)].  The cache directory is taken to be
    reachable: a file that is not there is answered with the not-exist
    error, and only the removal of a file that is there can be refused. *)
Definition Remove (env : Env) : M (option error) :=
  fun w => match cacheFile w with
           | None => (Some ErrNotExist, w)
           | Some _ =>
               if removeOK env
               then (None, {| now := now w; cacheFile := None; calls := calls w;
                              trace := trace w |})
               else (Some ErrPermission, w)
           end.

(** [os.Stat(a.cacheFile)], of which only the error is used; with the
    cache directory reachable it fails only for a file that is not
    there. *)
Definition Stat : M (option error) :=
  fun w => match cacheFile w with
           | Some _ => (None, w)
           | None => (Some ErrNotExist, w)
           end.

(** ** The authenticator *)

Section Authenticator.
Context {C : TimeCodec}.
Variable a : DeviceFlowAuthenticator.
Variable env : Env.

(** [loadCachedToken] loads the token from the cache file. *)
Definition loadCachedToken : M (result TokenCache) :=
  r <- ReadFile ;;
  match r with
  | Err err => ret (Err err)
  | Ok data =>
      match Unmarshal setTokenCache zeroTokenCache data with
      | None => ret (Err ErrJSON)
      | Some cache => ret (Ok cache)
      end
  end.

(** [saveTokenCache] saves the token to the cache file, with the expiry
    counted from the time of saving. *)
Definition saveTokenCache (tokenResp : TokenResponse) : M (option error) :=
  e <- MkdirAll env ;;
  match e with
  | Some err => ret (Some err)
  | None =>
      t <- timeNow ;;
      let cache := {| AccessToken := trAccessToken tokenResp;
                      RefreshToken := trRefreshToken tokenResp;
                      ExpiresAt := Add t (Int64.mul (ExpiresIn tokenResp) Second) |} in
      match MarshalIndent cache with
      | None => ret (Some ErrJSON)
      | Some data => WriteFile env data
      end
  end.

(** [refreshToken] exchanges the refresh token for a new access token.
    A failure to cache the new token is written to standard error and
    does not fail the call. *)
Definition refreshToken (refreshToken : string) : M (result string) :=
  resp <- PostForm env (RefreshRequest (clientID a) refreshToken AzureDevOpsScope) ;;
  match resp with
  | TransportError => ret (Err ErrNet)
  | Response status body =>
      if negb (status =? StatusOK) then
        ret (Err (ErrNew "failed to refresh token"))
      else
        match Decode setTokenResponse zeroTokenResponse body with
        | None => ret (Err ErrJSON)
        | Some tokenResp =>
            e <- saveTokenCache tokenResp ;;
            match e with
            | Some err => emit (Warned err)
            | None => ret tt
            end ;;
            ret (Ok (trAccessToken tokenResp))
        end
  end.

(** [requestDeviceCode] requests a device code. *)
Definition requestDeviceCode : M (result DeviceCodeResponse) :=
  resp <- PostForm env (DeviceCodeRequest (clientID a) AzureDevOpsScope) ;;
  match resp with
  | TransportError => ret (Err ErrNet)
  | Response status body =>
      if negb (status =? StatusOK) then
        ret (Err (ErrBody "device code request failed: " body))
      else
        match Decode setDeviceCode zeroDeviceCode body with
        | None => ret (Err ErrJSON)
        | Some deviceCode => ret (Ok deviceCode)
        end
  end.

(** The loop of [pollForToken].  [fuel] bounds the number of times the
    loop condition is evaluated; [None] is returned when it runs out
    while the loop is still going. *)
Fixpoint pollLoop (fuel : nat) (deviceCode : DeviceCodeResponse)
         (expiration : Time) (interval : Duration) : M (option (result string)) :=
  match fuel with
  | O => ret None
  | S fuel' =>
      t <- timeNow ;;
      if Before t expiration then
        timeSleep interval ;;
        resp <- PostForm env (PollRequest (clientID a) (DeviceCode deviceCode)) ;;
        match resp with
        | TransportError => pollLoop fuel' deviceCode expiration interval
        | Response status None => pollLoop fuel' deviceCode expiration interval
        | Response status (Some body) =>
            if negb (status =? StatusOK) then
              match Unmarshal setTokenError zeroTokenError body with
              | None => pollLoop fuel' deviceCode expiration interval
              | Some tokenErr =>
                  if (Error tokenErr =? "authorization_pending")%string then
                    pollLoop fuel' deviceCode expiration interval
                  else if (Error tokenErr =? "slow_down")%string then
                    pollLoop fuel' deviceCode expiration
                             (Int64.add interval (Int64.mul 5 Second))
                  else if (Error tokenErr =? "expired_token")%string then
                    ret (Some (Err (ErrNew "device code expired - please try again")))
                  else if (Error tokenErr =? "authorization_declined")%string then
                    ret (Some (Err (ErrNew "user declined authorization")))
                  else
                    ret (Some (Err (ErrNew ("authentication error: " ++ Error tokenErr
                                            ++ " - " ++ ErrorDescription tokenErr))))
              end
            else
              match Unmarshal setTokenResponse zeroTokenResponse body with
              | None => ret (Some (Err (ErrWrap "failed to parse token response: " ErrJSON)))
              | Some tokenResp =>
                  e <- saveTokenCache tokenResp ;;
                  match e with
                  | Some err => emit (Warned err)
                  | None => ret tt
                  end ;;
                  ret (Some (Ok (trAccessToken tokenResp)))
              end
        end
      else
        ret (Some (Err (ErrNew "authentication timed out")))
  end.

(** The interval [pollForToken] starts with: the one of the device code,
    or five seconds when that is zero. *)
Definition initialInterval (deviceCode : DeviceCodeResponse) : Duration :=
  let interval := Int64.mul (Interval deviceCode) Second in
  if interval =? 0 then Int64.mul 5 Second else interval.

(** [pollForToken] polls the token endpoint until authentication
    completes or the device code has expired. *)
Definition pollForToken (fuel : nat) (deviceCode : DeviceCodeResponse)
  : M (option (result string)) :=
  let interval := initialInterval deviceCode in
  t <- timeNow ;;
  let expiration := Add t (Int64.mul (dcExpiresIn deviceCode) Second) in
  pollLoop fuel deviceCode expiration interval.

(** [authenticateWithDeviceFlow]: request a device code, show the
    instructions, try to open the browser (whether that works changes
    only the line printed next), poll for the token. *)
Definition authenticateWithDeviceFlow (fuel : nat) : M (option (result string)) :=
  r <- requestDeviceCode ;;
  match r with
  | Err err => ret (Some (Err (ErrWrap "failed to request device code: " err)))
  | Ok deviceCode =>
      emit (Prompted (VerificationURI deviceCode) (UserCode deviceCode)) ;;
      emit (Browser (VerificationURI deviceCode)) ;;
      r <- pollForToken fuel deviceCode ;;
      match r with
      | None => ret None
      | Some (Err err) => ret (Some (Err (ErrWrap "authentication failed: " err)))
      | Some (Ok token) => ret (Some (Ok token))
      end
  end.

(** [GetToken]: the cached token while it is valid for five more
    minutes, else a refreshed one, else the device flow. *)
Definition GetToken (fuel : nat) : M (option (result string)) :=
  r <- loadCachedToken ;;
  match r with
  | Ok token =>
      t <- timeNow ;;
      if Before (Add t (Int64.mul 5 Minute)) (ExpiresAt token) then
        ret (Some (Ok (AccessToken token)))
      else if negb (RefreshToken token =? "")%string then
        r <- refreshToken (RefreshToken token) ;;
        match r with
        | Ok newToken => ret (Some (Ok newToken))
        | Err _ => authenticateWithDeviceFlow fuel
        end
      else authenticateWithDeviceFlow fuel
  | Err _ => authenticateWithDeviceFlow fuel
  end.

(** [ClearCache] removes the cached token. *)
Definition ClearCache : M (option error) :=
  err <- Remove env ;;
  if IsNotExist err then ret None else ret err.

(** [HasCachedToken]: is there a cache file (its token may have
    expired). *)
Definition HasCachedToken : M bool :=
  err <- Stat ;;
  ret (match err with None => true | Some _ => false end).

End Authenticator.

(** ** Observations on a run *)

(** The requests of a trace, in the order they were sent, each with the
    time at which it was sent. *)
Fixpoint requests (tr : list (Time * Event)) : list (Time * Request) :=
  match tr with
  | [] => []
  | (t, Sent r) :: rest => (t, r) :: requests rest
  | _ :: rest => requests rest
  end.

(** The arguments of the calls of [time.Sleep], in order. *)
Fixpoint sleeps (tr : list (Time * Event)) : list Duration :=
  match tr with
  | [] => []
  | (_, Slept d) :: rest => d :: sleeps rest
  | _ :: rest => sleeps rest
  end.

(** The warnings written to standard error, in order. *)
Fixpoint warnings (tr : list (Time * Event)) : list error :=
  match tr with
  | [] => []
  | (_, Warned e) :: rest => e :: warnings rest
  | _ :: rest => warnings rest
  end.

Definition isRefresh (r : Time * Request) : bool :=
  match snd r with
  | RefreshRequest _ _ _ => true
  | _ => false
  end.

Definition isPoll (r : Time * Request) : bool :=
  match snd r with
  | PollRequest _ _ => true
  | _ => false
  end.

(** What a run starting in [w] and ending in [w'] added to the trace. *)
Definition emitted (w w' : World) : list (Time * Event) :=
  skipn (List.length (trace w)) (trace w').

(** The world after one HTTP call. *)
Definition posted (env : Env) (r : Request) (w : World) : World :=
  {| now := now w + Z.pos (latency (server env (calls w)));
     cacheFile := cacheFile w;
     calls := S (calls w);
     trace := trace w ++ [(now w, Sent r)] |}.

(** The world after the sign-in prompt and the attempt to open the
    browser. *)
Definition prompted (deviceCode : DeviceCodeResponse) (w : World) : World :=
  {| now := now w;
     cacheFile := cacheFile w;
     calls := calls w;
     trace := trace w ++ [(now w, Prompted (VerificationURI deviceCode) (UserCode deviceCode));
                          (now w, Browser (VerificationURI deviceCode))] |}.

(** The world after one [time.Sleep(interval)] and one poll request. *)
Definition polled (a : DeviceFlowAuthenticator) (env : Env)
           (deviceCode : DeviceCodeResponse) (interval : Duration) (w : World) : World :=
  {| now := now w + Z.max 0 interval + Z.pos (latency (server env (calls w)));
     cacheFile := cacheFile w;
     calls := S (calls w);
     trace := trace w ++ [(now w, Slept interval);
                          (now w + Z.max 0 interval,
                           Sent (PollRequest (clientID a) (DeviceCode deviceCode)))] |}.

(** The signal that the poll loop reads from a reply (the table of the
    token poller): the loop goes on, with or without a longer interval;
    it stops with an error; or it has the token. *)
Inductive Signal : Type :=
| Pending (slowDown : bool)
| Stopped (e : error)
| Granted (tokenResp : TokenResponse).

Definition classify (resp : Reply) : Signal :=
  match resp with
  | TransportError => Pending false
  | Response _ None => Pending false
  | Response status (Some body) =>
      if negb (status =? StatusOK) then
        match Unmarshal setTokenError zeroTokenError body with
        | None => Pending false
        | Some tokenErr =>
            if (Error tokenErr =? "authorization_pending")%string then Pending false
            else if (Error tokenErr =? "slow_down")%string then Pending true
            else if (Error tokenErr =? "expired_token")%string then
              Stopped (ErrNew "device code expired - please try again")
            else if (Error tokenErr =? "authorization_declined")%string then
              Stopped (ErrNew "user declined authorization")
            else
              Stopped (ErrNew ("authentication error: " ++ Error tokenErr
                               ++ " - " ++ ErrorDescription tokenErr))
        end
      else
        match Unmarshal setTokenResponse zeroTokenResponse body with
        | None => Stopped (ErrWrap "failed to parse token response: " ErrJSON)
        | Some tokenResp => Granted tokenResp
        end
  end.

(** A reply that is neither success, nor a decline, nor a terminal
    error. *)
Definition keepsPolling (resp : Reply) : bool :=
  match classify resp with
  | Pending _ => true
  | _ => false
  end.

(** A reply whose error code is [slow_down]. *)
Definition isSlowDown (resp : Reply) : bool :=
  match classify resp with
  | Pending slowDown => slowDown
  | _ => false
  end.

(** A response with a status other than 200 whose body was read and is
    not the JSON of an OAuth error object. *)
Definition malformedError (resp : Reply) : bool :=
  match resp with
  | Response status (Some body) =>
      negb (status =? StatusOK) &&
      match Unmarshal setTokenError zeroTokenError body with
      | None => true
      | Some _ => false
      end
  | _ => false
  end.

(** The number of [slow_down] replies among the [k] replies that start
    with the reply to call number [start]. *)
Fixpoint slowDowns (env : Env) (start k : nat) : Z :=
  match k with
  | O => 0
  | S k' => (if isSlowDown (reply (server env start)) then 1 else 0)
            + slowDowns env (S start) k'
  end.

(** The interval the loop uses for its [k]-th sleep (counted from 0) when
    it enters with [interval] and its first poll is call number
    [start]. *)
Fixpoint intervalAt (env : Env) (start : nat) (interval : Duration) (k : nat) : Duration :=
  match k with
  | O => interval
  | S k' =>
      intervalAt env (S start)
                 (if isSlowDown (reply (server env start))
                  then Int64.add interval (Int64.mul 5 Second) else interval) k'
  end.

(** Two worlds that differ at most in the content of the cache file. *)
Definition sameButFile (w1 w2 : World) : Prop :=
  now w1 = now w2 /\ calls w1 = calls w2 /\ trace w1 = trace w2.

(** The end of a successful exchange: the token is cached, a failure to
    cache it is only warned about, and the access token is the value. *)
Definition cacheOrWarn {C : TimeCodec} (env : Env) (tokenResp : TokenResponse)
           (w : World) : World :=
  match saveTokenCache env tokenResp w with
  | (Some err, w1) => snd (emit (Warned err) w1)
  | (None, w1) => w1
  end.

Definition timedOut : option (result string) :=
  Some (Err (ErrNew "authentication timed out")).

(** ** A codec and inputs to run the functions on *)

(** Instants written as decimal numbers of nanoseconds. *)
Definition decimalTime : TimeCodec :=
  {| marshalTime := fun t => Some (NilZero.string_of_int (Z.to_int t));
     unmarshalTime := fun s => option_map Z.of_int (NilZero.int_of_string s) |}.

Definition auth0 : DeviceFlowAuthenticator := NewDeviceFlowAuthenticator.

Definition world0 : World :=
  {| now := 0; cacheFile := None; calls := O; trace := [] |}.

Definition errorBody (code : string) : option bytes :=
  Some (JSONText (JObj [("error"%string, JStr code)]) false).

Definition pendingReply : Reply := Response 400 (errorBody "authorization_pending").
Definition slowDownReply : Reply := Response 400 (errorBody "slow_down").
Definition expiredReply : Reply := Response 400 (errorBody "expired_token").
Definition htmlReply : Reply := Response 502 (Some NotJSON).

Definition tokenBody (access refresh : string) (expiresIn : Z) : option bytes :=
  Some (JSONText (JObj [("access_token"%string, JStr access);
                        ("refresh_token"%string, JStr refresh);
                        ("expires_in"%string, JNum (NInt expiresIn))]) false).

(** An environment whose file operations succeed. *)
Definition envOf (srv : nat -> Exchange) : Env :=
  {| server := srv; mkdirOK := true; writeOK := true; removeOK := true |}.

(** A server that answers every call with the same reply after one
    second. *)
Definition always (r : Reply) : nat -> Exchange :=
  fun _ => {| latency := 1000000000; reply := r |}.

Definition deviceOf (expiresIn interval : Z) : DeviceCodeResponse :=
  {| DeviceCode := "D1"; UserCode := "ABC-123";
     VerificationURI := "https://microsoft.com/devicelogin";
     dcExpiresIn := expiresIn; Interval := interval; Message := "" |}.

(** The token endpoint grants a new token on the first call. *)
Definition grantsAtOnce : nat -> Exchange :=
  fun _ => {| latency := 1000000000; reply := Response 200 (tokenBody "T2" "R2" 3600) |}.

(** The device-code endpoint answers the first call, the token endpoint
    grants the token on the second. *)
Definition deviceThenGrant : nat -> Exchange :=
  fun n => match n with
           | O => {| latency := 1000000000;
                     reply := Response 200
                       (Some (JSONText (JObj [("device_code"%string, JStr "D1");
                                              ("user_code"%string, JStr "ABC-123");
                                              ("expires_in"%string, JNum (NInt 900));
                                              ("interval"%string, JNum (NInt 5))]) false)) |}
           | _ => {| latency := 1000000000; reply := Response 200 (tokenBody "T1" "R1" 3600) |}
           end.

(** The device-code endpoint answers the first call; the token endpoint
    answers [authorization_pending] twice and then grants the token. *)
Definition scenario : nat -> Exchange :=
  fun n => match n with
           | O => deviceThenGrant O
           | 1%nat | 2%nat => {| latency := 1000000000; reply := pendingReply |}
           | _ => {| latency := 1000000000; reply := Response 200 (tokenBody "T1" "R1" 3600) |}
           end.

(** A world whose cache file is not JSON. *)
Definition corruptWorld : World :=
  {| now := 0; cacheFile := Some NotJSON; calls := O; trace := [] |}.

(** An environment in which the cache directory cannot be created. *)
Definition readOnlyEnv (srv : nat -> Exchange) : Env :=
  {| server := srv; mkdirOK := false; writeOK := false; removeOK := false |}.

(** A gateway page first, then [authorization_pending]. *)
Definition gatewayThenPending : nat -> Exchange :=
  fun n => match n with
           | O => {| latency := 1000000000; reply := htmlReply |}
           | _ => {| latency := 1000000000; reply := pendingReply |}
           end.

(** [slow_down] first, then [expired_token]. *)
Definition slowDownThenExpired : nat -> Exchange :=
  fun n => match n with
           | O => {| latency := 1000000000; reply := slowDownReply |}
           | _ => {| latency := 1000000000; reply := expiredReply |}
           end.

(** A world whose cache file holds a credential, with the expiry written
    by [decimalTime]. *)
Definition cachedWorld (access refresh expiresAt : string) (t : Time) : World :=
  {| now := t;
     cacheFile := Some (JSONText (JObj [("access_token"%string, JStr access);
                                        ("refresh_token"%string, JStr refresh);
                                        ("expires_at"%string, JStr expiresAt)]) false);
     calls := O;
     trace := [] |}.

(** ** The Authorization header *)

(** [base64.StdEncoding.EncodeToString]: three bytes give four characters
    of the standard alphabet; a last group of one or two bytes is padded
    with [=]. *)
Definition encodeStd : string :=
  "ABCDEFGHIJKLMNOPQRSTUVWXYZabcdefghijklmnopqrstuvwxyz0123456789+/".

Definition b64char (n : N) : ascii :=
  match String.get (N.to_nat n) encodeStd with
  | Some c => c
  | None => "="%char
  end.

Fixpoint EncodeToString (src : string) : string :=
  match src with
  | EmptyString => EmptyString
  | String a EmptyString =>
      let n := (N_of_ascii a * 65536)%N in
      String (b64char (n / 262144)) (String (b64char ((n / 4096) mod 64)) "==")
  | String a (String b EmptyString) =>
      let n := (N_of_ascii a * 65536 + N_of_ascii b * 256)%N in
      String (b64char (n / 262144))
        (String (b64char ((n / 4096) mod 64))
           (String (b64char ((n / 64) mod 64)) "="))
  | String a (String b (String c rest)) =>
      let n := (N_of_ascii a * 65536 + N_of_ascii b * 256 + N_of_ascii c)%N in
      String (b64char (n / 262144))
        (String (b64char ((n / 4096) mod 64))
           (String (b64char ((n / 64) mod 64))
              (String (b64char (n mod 64)) (EncodeToString rest))))
  end.

(** [GetAuthHeader]: "Bearer <token>" for an OAuth token,
    "Basic <base64(:PAT)>" for a personal access token. *)
Definition GetAuthHeader (token : string) (isPAT : bool) : string :=
  if isPAT then
    let encoded := EncodeToString (":" ++ token) in
    ("Basic " ++ encoded)%string
  else ("Bearer " ++ token)%string.

(** Reading standard base64 back (RFC 4648, with padding): the inverse
    that a server applies to the credential. *)
Definition b64index (c : ascii) : option N :=
  let n := N_of_ascii c in
  if ((65 <=? n) && (n <=? 90))%N then Some (n - 65)%N
  else if ((97 <=? n) && (n <=? 122))%N then Some (n - 71)%N
  else if ((48 <=? n) && (n <=? 57))%N then Some (n + 4)%N
  else if (n =? 43)%N then Some 62%N
  else if (n =? 47)%N then Some 63%N
  else None.

Fixpoint DecodeString (s : string) : option string :=
  match s with
  | EmptyString => Some EmptyString
  | String c1 (String c2 (String c3 (String c4 rest))) =>
      match b64index c1, b64index c2 with
      | Some i1, Some i2 =>
          if (Ascii.eqb c3 "=" && Ascii.eqb c4 "=")%bool then
            match rest with
            | EmptyString =>
                if ((i2 mod 16) =? 0)%N
                then Some (String (ascii_of_N (i1 * 4 + i2 / 16)) EmptyString)
                else None
            | _ => None
            end
          else
            match b64index c3 with
            | Some i3 =>
                if Ascii.eqb c4 "=" then
                  match rest with
                  | EmptyString =>
                      if ((i3 mod 4) =? 0)%N
                      then Some (String (ascii_of_N (i1 * 4 + i2 / 16))
                                   (String (ascii_of_N ((i2 mod 16) * 16 + i3 / 4))
                                      EmptyString))
                      else None
                  | _ => None
                  end
                else
                  match b64index c4, DecodeString rest with
                  | Some i4, Some tail =>
                      Some (String (ascii_of_N (i1 * 4 + i2 / 16))
                              (String (ascii_of_N ((i2 mod 16) * 16 + i3 / 4))
                                 (String (ascii_of_N ((i3 mod 4) * 64 + i4)) tail)))
                  | _, _ => None
                  end
            | None => None
            end
      | _, _ => None
      end
  | _ => None
  end.

(** ** Package [config]: the fields that decide the authentication *)

Module config.

Definition AuthMethod : Type := string.
Definition AuthMethodPAT : AuthMethod := "pat"%string.
Definition AuthMethodOAuth : AuthMethod := "oauth"%string.

Record Defaults : Type := {
  Sprint : string;
  State : string;
  Assigned : string
}.

(** [cfgDefaults] and [cfgAuthMethod] are the fields [Defaults] and
    [AuthMethod]; [cfgAuthMethod] and [AccessToken] are never read from
    the configuration file. *)
Record Config : Type := {
  Organization : string;
  Project : string;
  Team : string;
  PAT : string;
  Theme : string;
  cfgDefaults : Defaults;
  cfgAuthMethod : AuthMethod;
  AccessToken : string
}.

(** What viper hands to [Load]: an error on reading a configuration file
    that exists, an error on decoding, or the values of the file, the
    environment and the defaults. *)
Inductive Viper : Type :=
| ReadError (e : error)
| UnmarshalError (e : error)
| Decoded (organization project team pat theme : string) (d : Defaults).

(** [Load]: the three names of the connection are required, the PAT is
    not; the authentication method follows from the PAT. *)
Definition Load (v : Viper) : result Config :=
  match v with
  | ReadError e => Err (ErrWrap "error reading config file: " e)
  | UnmarshalError e => Err (ErrWrap "error unmarshaling config: " e)
  | Decoded organization project team pat theme d =>
      if (organization =? "")%string then
        Err (ErrNew "organization is required (set in config or AZURE_DEVOPS_ORG)")
      else if (project =? "")%string then
        Err (ErrNew "project is required (set in config or AZURE_DEVOPS_PROJECT)")
      else if (team =? "")%string then
        Err (ErrNew "team is required (set in config or AZURE_DEVOPS_TEAM)")
      else
        Ok {| Organization := organization; Project := project; Team := team;
              PAT := pat; Theme := theme; cfgDefaults := d;
              cfgAuthMethod := if negb (pat =? "")%string
                               then AuthMethodPAT else AuthMethodOAuth;
              AccessToken := "" |}
  end.

(** [NeedsOAuth]: is the device flow needed. *)
Definition NeedsOAuth (c : Config) : bool :=
  ((PAT c =? "") && (AccessToken c =? ""))%string.

(** [SetAccessToken] sets the OAuth access token. *)
Definition SetAccessToken (c : Config) (token : string) : Config :=
  {| Organization := Organization c; Project := Project c; Team := Team c;
     PAT := PAT c; Theme := Theme c; cfgDefaults := cfgDefaults c;
     cfgAuthMethod := AuthMethodOAuth;
     AccessToken := token |}.

(** [GetToken]: the active token, the PAT before the access token. *)
Definition GetToken (c : Config) : string :=
  if negb (PAT c =? "")%string then PAT c else AccessToken c.

(** [IsPAT]. *)
Definition IsPAT (c : Config) : bool :=
  (cfgAuthMethod c =? AuthMethodPAT)%string.

Definition BaseURL (c : Config) : string :=
  ("https://dev.azure.com/" ++ Organization c ++ "/" ++ Project c ++ "/_apis")%string.

Definition TeamURL (c : Config) : string :=
  ("https://dev.azure.com/" ++ Organization c ++ "/" ++ Project c ++ "/" ++ Team c
   ++ "/_apis")%string.

Definition WebURL (c : Config) : string :=
  ("https://dev.azure.com/" ++ Organization c ++ "/" ++ Project c)%string.

End config.

(** ** Package [api]: the construction of the client *)

Module api.

(** The client without its [http.Client], which is the same in every
    client (a timeout of 30 seconds). *)
Record Client : Type := {
  baseURL : string;
  teamURL : string;
  webURL : string;
  authHeader : string;
  organization : string;
  project : string;
  team : string
}.

(** [NewClient]. *)
Definition NewClient (cfg : config.Config) : Client :=
  let authHeader :=
    if config.IsPAT cfg then
      let auth := EncodeToString (":" ++ config.PAT cfg) in
      ("Basic " ++ auth)%string
    else ("Bearer " ++ config.GetToken cfg)%string in
  {| baseURL := config.BaseURL cfg;
     teamURL := config.TeamURL cfg;
     webURL := config.WebURL cfg;
     authHeader := authHeader;
     organization := config.Organization cfg;
     project := config.Project cfg;
     team := config.Team cfg |}.

(** [NewClientWithToken]. *)
Definition NewClientWithToken (cfg : config.Config) (token : string) (isPAT : bool)
  : Client :=
  let authHeader :=
    if isPAT then
      let auth := EncodeToString (":" ++ token) in
      ("Basic " ++ auth)%string
    else ("Bearer " ++ token)%string in
  {| baseURL := config.BaseURL cfg;
     teamURL := config.TeamURL cfg;
     webURL := config.WebURL cfg;
     authHeader := authHeader;
     organization := config.Organization cfg;
     project := config.Project cfg;
     team := config.Team cfg |}.

End api.

(** ** Package [cmd]: login and logout *)

Module cmd.

(** The result of a command: the lines it printed itself on standard
    output (the output of the device flow is in the trace) and its
    error. *)
Definition Outcome : Type := (list string * option error)%type.

(** [Logout] clears the cached OAuth token. *)
Definition Logout (env : Env) : M Outcome :=
  has <- HasCachedToken ;;
  if negb has then
    ret (["No cached credentials found."%string], None)
  else
    e <- ClearCache env ;;
    match e with
    | Some err => ret ([], Some (ErrWrap "failed to clear cached credentials: " err))
    | None =>
        ret (["✓ Successfully logged out. Cached credentials have been removed."%string;
              "  You will need to re-authenticate on next run."%string], None)
    end.

(** The part of [Login] that follows the clearing of the cache. *)
Definition authenticateAfterClear {C : TimeCodec} (env : Env) (fuel : nat)
           (printed : list string) : M (option Outcome) :=
  r <- GetToken NewDeviceFlowAuthenticator env fuel ;;
  match r with
  | None => ret None
  | Some (Err err) =>
      ret (Some (printed ++ ["Starting authentication..."%string; ""%string],
                 Some (ErrWrap "authentication failed: " err)))
  | Some (Ok _) =>
      ret (Some (printed ++ ["Starting authentication..."%string; ""%string;
                             "You can now run 'devops-tui' to start the application."%string],
                 None))
  end.

(** [Login] forces re-authentication via the device flow. *)
Definition Login {C : TimeCodec} (env : Env) (fuel : nat) : M (option Outcome) :=
  has <- HasCachedToken ;;
  if has then
    e <- ClearCache env ;;
    match e with
    | Some err =>
        ret (Some (["Clearing existing cached credentials..."%string],
                   Some (ErrWrap "failed to clear cached credentials: " err)))
    | None =>
        authenticateAfterClear env fuel ["Clearing existing cached credentials..."%string]
    end
  else authenticateAfterClear env fuel [].

End cmd.

(** ** Further observations *)

(** The time spent waiting for the [k] answers that start with the answer
    to call number [start]. *)
Fixpoint latencies (env : Env) (start k : nat) : Z :=
  match k with
  | O => 0
  | S k' => Z.pos (latency (server env start)) + latencies env (S start) k'
  end.

(** What a server reads from an Authorization header of the Basic scheme:
    the decoded credential, if the header is of that scheme and its
    payload is standard base64. *)
Definition basicCredential (header : string) : option string :=
  if String.prefix "Basic " header
  then DecodeString (String.substring 6 (String.length header - 6) header)
  else None.

(** An environment whose endpoints cannot be reached. *)
Definition offline : Env := envOf (always TransportError).

(** The errors with which the poll loop ends. *)
Definition isPollError (e : error) : Prop :=
  e = ErrNew "authentication timed out"
  \/ e = ErrNew "device code expired - please try again"
  \/ e = ErrNew "user declined authorization"
  \/ (exists code description,
        e = ErrNew ("authentication error: " ++ code ++ " - " ++ description))
  \/ e = ErrWrap "failed to parse token response: " ErrJSON.

(** The errors with which the request for a device code ends. *)
Definition isDeviceCodeError (e : error) : Prop :=
  e = ErrNet
  \/ (exists body, e = ErrBody "device code request failed: " body)
  \/ e = ErrJSON.

(** The world without its cache file. *)
Definition withoutCache (w : World) : World :=
  {| now := now w; cacheFile := None; calls := calls w; trace := trace w |}.

(** A codec that can write every instant. *)
Definition codec_total (C : TimeCodec) : Prop :=
  forall t, marshalTime t <> None.

(** * Properties *)

(** ** Arithmetic on 64 bits *)

Lemma wrap_id z : Int64.min_int <= z <= Int64.max_int -> Int64.wrap z = z.
Proof.
  unfold Int64.wrap, Int64.min_int, Int64.max_int. intros H.
  rewrite Z.mod_small; lia.
Qed.

Lemma wrap_range z : Int64.min_int <= Int64.wrap z <= Int64.max_int.
Proof.
  unfold Int64.wrap, Int64.min_int, Int64.max_int.
  pose proof (Z.mod_pos_bound (z + 2 ^ 63) (2 ^ 64) ltac:(lia)). lia.
Qed.

Lemma five_minutes : Int64.mul 5 Minute = 300000000000.
Proof. reflexivity. Qed.

Lemma five_seconds : Int64.mul 5 Second = 5000000000.
Proof. reflexivity. Qed.

(** ** Traces *)

Lemma emitted_app w w' evs : trace w' = trace w ++ evs -> emitted w w' = evs.
Proof.
  intros E. unfold emitted. rewrite E.
  rewrite skipn_app, skipn_all, Nat.sub_diag. reflexivity.
Qed.

(** ** The operations, one by one *)

(** Loading reads the world and leaves it as it is. *)
Lemma loadCachedToken_eq {C : TimeCodec} (w : World) :
  loadCachedToken w = (fst (loadCachedToken w), w).
Proof.
  unfold loadCachedToken, bind, ReadFile, ret.
  destruct (cacheFile w) as [data|]; [|reflexivity].
  destruct (Unmarshal setTokenCache zeroTokenCache data); reflexivity.
Qed.

(** Saving touches nothing but the cache file. *)
Lemma saveTokenCache_frame {C : TimeCodec} env tokenResp w :
  sameButFile (snd (saveTokenCache env tokenResp w)) w.
Proof.
  unfold saveTokenCache, bind, MkdirAll, ret, timeNow, WriteFile, sameButFile.
  destruct (mkdirOK env); simpl; auto.
  destruct (MarshalIndent _); simpl; auto.
  destruct (writeOK env); simpl; auto.
Qed.

Lemma cacheOrWarn_frame {C : TimeCodec} env tokenResp w :
  now (cacheOrWarn env tokenResp w) = now w
  /\ calls (cacheOrWarn env tokenResp w) = calls w
  /\ exists evs, trace (cacheOrWarn env tokenResp w) = trace w ++ evs
                 /\ requests evs = [] /\ sleeps evs = [].
Proof.
  unfold cacheOrWarn.
  pose proof (saveTokenCache_frame env tokenResp w) as (Hn & Hc & Ht).
  destruct (saveTokenCache env tokenResp w) as [[err|] w1]; simpl in *.
  - rewrite Hn, Hc, Ht. repeat split; auto. eexists; split; [reflexivity|]. auto.
  - rewrite Hn, Hc, Ht. repeat split; auto. exists []. rewrite app_nil_r. auto.
Qed.

(** One sleep followed by one poll request. *)
Lemma poll_once a env deviceCode interval w :
  (timeSleep interval ;;
   PostForm env (PollRequest (clientID a) (DeviceCode deviceCode))) w
  = (reply (server env (calls w)), polled a env deviceCode interval w).
Proof.
  unfold timeSleep, PostForm, bind, emit, advance, polled. simpl.
  rewrite <- app_assoc. reflexivity.
Qed.

(** One turn of the poll loop, read through [classify]. *)
Lemma pollLoop_S {C : TimeCodec} a env fuel deviceCode expiration interval w :
  pollLoop a env (S fuel) deviceCode expiration interval w =
  if now w <? expiration then
    match classify (reply (server env (calls w))) with
    | Pending slowDown =>
        pollLoop a env fuel deviceCode expiration
                 (if slowDown then Int64.add interval (Int64.mul 5 Second) else interval)
                 (polled a env deviceCode interval w)
    | Stopped e => (Some (Err e), polled a env deviceCode interval w)
    | Granted tokenResp =>
        (Some (Ok (trAccessToken tokenResp)),
         cacheOrWarn env tokenResp (polled a env deviceCode interval w))
    end
  else (timedOut, w).
Proof.
  cbn [pollLoop]. unfold bind at 1. unfold timeNow at 1. unfold Before.
  destruct (now w <? expiration); [|reflexivity].
  unfold bind at 1 2.
  pose proof (poll_once a env deviceCode interval w) as P.
  unfold bind in P at 1.
  destruct (timeSleep interval w) as [u w1].
  rewrite P. clear P.
  unfold classify.
  destruct (reply (server env (calls w))) as [|status [body|]]; try reflexivity.
  destruct (negb (status =? StatusOK)).
  - destruct (Unmarshal setTokenError zeroTokenError body) as [tokenErr|]; [|reflexivity].
    repeat (match goal with |- context [if ?b then _ else _] => destruct b end;
            try reflexivity).
  - destruct (Unmarshal setTokenResponse zeroTokenResponse body) as [tokenResp|];
      [|reflexivity].
    unfold bind, cacheOrWarn, ret.
    destruct (saveTokenCache env tokenResp _) as [[err|] w2]; reflexivity.
Qed.

Lemma pollForToken_eq {C : TimeCodec} a env fuel deviceCode w :
  pollForToken a env fuel deviceCode w =
  pollLoop a env fuel deviceCode
           (now w + Int64.mul (dcExpiresIn deviceCode) Second)
           (initialInterval deviceCode) w.
Proof. reflexivity. Qed.

Lemma polled_now a env deviceCode interval w :
  now w < now (polled a env deviceCode interval w).
Proof. simpl. pose proof (Pos2Z.is_pos (latency (server env (calls w)))). lia. Qed.

(** More fuel does not change a run that came to its end. *)
Lemma pollLoop_fuel_mono {C : TimeCodec} a env deviceCode expiration fuel :
  forall interval w r w' extra,
    pollLoop a env fuel deviceCode expiration interval w = (Some r, w') ->
    pollLoop a env (fuel + extra) deviceCode expiration interval w = (Some r, w').
Proof.
  induction fuel as [|fuel IH]; intros interval w r w' extra H.
  - discriminate H.
  - change (S fuel + extra)%nat with (S (fuel + extra)).
    rewrite pollLoop_S in *.
    destruct (now w <? expiration); [|exact H].
    destruct (classify (reply (server env (calls w)))); auto.
Qed.

(** ** Claim C1 *)

(** C1. When the cache holds a credential whose [ExpiresAt] lies more than
    five minutes after the current time, [GetToken] returns the cached
    access token and leaves the world as it found it: the clock, the
    number of HTTP calls and the trace are unchanged, so no device-code
    request, no poll and no refresh was sent. *)
Theorem GetToken_fresh_cache {C : TimeCodec}
        (a : DeviceFlowAuthenticator) (env : Env) (fuel : nat)
        (w : World) (token : TokenCache) :
  fst (loadCachedToken w) = Ok token ->
  now w + 5 * Minute < ExpiresAt token ->
  GetToken a env fuel w = (Some (Ok (AccessToken token)), w)
  /\ requests (emitted w (snd (GetToken a env fuel w))) = []
  /\ calls (snd (GetToken a env fuel w)) = calls w.
Proof.
  intros Hload Hfresh.
  assert (E : GetToken a env fuel w = (Some (Ok (AccessToken token)), w)).
  { unfold GetToken, bind. rewrite (loadCachedToken_eq w), Hload.
    unfold timeNow, Before, Add. rewrite five_minutes.
    replace (5 * Minute) with 300000000000 in Hfresh by reflexivity.
    apply Z.ltb_lt in Hfresh. rewrite Hfresh. reflexivity. }
  rewrite E. simpl. repeat split.
  unfold emitted. rewrite skipn_all. reflexivity.
Qed.

Lemma GetToken_fresh_cache_witness :
  let w := cachedWorld "T1" "R1" "1000000000000" 0 in
  GetToken (C := decimalTime) auth0 (envOf (always TransportError)) 0 w
  = (Some (Ok "T1"%string), w)
  /\ requests (emitted w (snd (GetToken (C := decimalTime) auth0
                                        (envOf (always TransportError)) 0 w))) = []
  /\ calls (snd (GetToken (C := decimalTime) auth0
                          (envOf (always TransportError)) 0 w)) = calls w.
Proof.
  exact (GetToken_fresh_cache (C := decimalTime) auth0 (envOf (always TransportError)) 0
           (cachedWorld "T1" "R1" "1000000000000" 0)
           {| AccessToken := "T1"; RefreshToken := "R1"; ExpiresAt := 1000000000000 |}
           eq_refl eq_refl).
Defined.

(** ** A run of the whole flow *)

(** Device code with a lifetime of 900 s and an interval of 5 s, two
    polls answered [authorization_pending], the third with the token:
    [GetToken] returns the token after three polls that are at least five
    seconds apart, and the cache file holds the credential. *)
Example GetToken_scenario :
  let run := GetToken (C := decimalTime) auth0 (envOf scenario) 10 world0 in
  fst run = Some (Ok "T1"%string)
  /\ requests (trace (snd run))
     = [(0, DeviceCodeRequest DefaultClientID AzureDevOpsScope);
        (6000000000, PollRequest DefaultClientID "D1");
        (12000000000, PollRequest DefaultClientID "D1");
        (18000000000, PollRequest DefaultClientID "D1")]
  /\ fst (loadCachedToken (C := decimalTime) (snd run))
     = Ok {| AccessToken := "T1"; RefreshToken := "R1"; ExpiresAt := 3619000000000 |}.
Proof. cbv zeta. repeat split; vm_compute; reflexivity. Qed.

(** ** Claim C3 *)

Lemma pollLoop_times_out {C : TimeCodec} a env deviceCode expiration :
  (forall n, keepsPolling (reply (server env n)) = true) ->
  forall fuel interval w,
    (Z.to_nat (expiration - now w) < fuel)%nat ->
    fst (pollLoop a env fuel deviceCode expiration interval w) = timedOut.
Proof.
  intros Hsrv. induction fuel as [|fuel IH]; intros interval w Hfuel; [lia|].
  rewrite pollLoop_S.
  destruct (Z.ltb_spec (now w) expiration) as [Hlt|Hge]; [|reflexivity].
  specialize (Hsrv (calls w)). unfold keepsPolling in Hsrv.
  destruct (classify (reply (server env (calls w)))); try discriminate Hsrv.
  apply IH.
  pose proof (polled_now a env deviceCode interval w). lia.
Qed.

(** C3. The poll loop is bounded by the deadline: against a server whose
    replies are never a success, a decline or a terminal error, polling
    comes to an end for every device authorization (there is a number of
    turns of the loop that suffices, and it only depends on the lifetime
    of the device code), and its result is the error "authentication
    timed out". *)
Theorem polling_ends_timed_out {C : TimeCodec}
        (a : DeviceFlowAuthenticator) (env : Env)
        (deviceCode : DeviceCodeResponse) (w : World) :
  (forall n, keepsPolling (reply (server env n)) = true) ->
  exists bound : nat,
    forall fuel, (bound <= fuel)%nat ->
      fst (pollForToken a env fuel deviceCode w)
      = Some (Err (ErrNew "authentication timed out")).
Proof.
  intros Hsrv.
  exists (S (Z.to_nat (Int64.mul (dcExpiresIn deviceCode) Second))).
  intros fuel Hfuel. rewrite pollForToken_eq.
  apply pollLoop_times_out; [exact Hsrv|]. lia.
Qed.

Lemma polling_ends_timed_out_witness :
  (forall n, keepsPolling (reply (server (envOf (always pendingReply)) n)) = true)
  /\ exists bound : nat,
      forall fuel, (bound <= fuel)%nat ->
        fst (pollForToken (C := decimalTime) auth0 (envOf (always pendingReply))
                          fuel (deviceOf 1 5) world0)
        = Some (Err (ErrNew "authentication timed out")).
Proof.
  split.
  - intros n. reflexivity.
  - apply (polling_ends_timed_out (C := decimalTime) auth0
             (envOf (always pendingReply)) (deviceOf 1 5) world0).
    intros n. reflexivity.
Defined.

(** The scenario of a device code that lives one second and is polled
    every five: [GetToken] asks for the device code, polls once, and
    fails with the timed-out error. *)
Example GetToken_short_lived_code :
  let srv := fun n : nat =>
    match n with
    | O => {| latency := 1;
              reply := Response 200
                (Some (JSONText (JObj [("device_code"%string, JStr "D1");
                                       ("user_code"%string, JStr "ABC-123");
                                       ("expires_in"%string, JNum (NInt 1));
                                       ("interval"%string, JNum (NInt 5))]) false)) |}
    | _ => {| latency := 1; reply := pendingReply |}
    end in
  fst (GetToken (C := decimalTime) auth0 (envOf srv) 2 world0)
  = Some (Err (ErrWrap "authentication failed: " (ErrNew "authentication timed out"))).
Proof. vm_compute. reflexivity. Qed.

(** ** The trace of the poll loop *)

(** What the loop adds to the trace: its sleeps use the intervals that
    [intervalAt] computes, and all its requests are poll requests. *)
Lemma pollLoop_trace {C : TimeCodec} a env deviceCode expiration fuel :
  forall interval w,
  exists evs,
    trace (snd (pollLoop a env fuel deviceCode expiration interval w)) = trace w ++ evs
    /\ (forall k d, nth_error (sleeps evs) k = Some d ->
                    d = intervalAt env (calls w) interval k)
    /\ forallb isPoll (requests evs) = true.
Proof.
  induction fuel as [|fuel IH]; intros interval w.
  - exists []. simpl. rewrite app_nil_r. repeat split.
    intros [|k] d H; discriminate H.
  - rewrite pollLoop_S.
    destruct (now w <? expiration).
    2:{ exists []. simpl. rewrite app_nil_r. repeat split.
        intros [|k] d H; discriminate H. }
    remember (polled a env deviceCode interval w) as w1 eqn:Hw1.
    assert (Ht1 : trace w1 = trace w ++
              [(now w, Slept interval);
               (now w + Z.max 0 interval,
                Sent (PollRequest (clientID a) (DeviceCode deviceCode)))])
      by (subst w1; reflexivity).
    assert (Hc1 : calls w1 = S (calls w)) by (subst w1; reflexivity).
    unfold isSlowDown in *.
    destruct (classify (reply (server env (calls w)))) as [slow|e|tokenResp] eqn:Hcl.
    + destruct (IH (if slow then Int64.add interval (Int64.mul 5 Second) else interval) w1)
        as (evs & Ht & Hs & Hp).
      eexists. split; [rewrite Ht, Ht1, <- app_assoc; reflexivity|].
      split.
      * intros [|k] d H; simpl in H.
        -- injection H as <-. reflexivity.
        -- apply Hs in H. rewrite Hc1 in H. simpl. unfold isSlowDown. rewrite Hcl.
           exact H.
      * simpl. exact Hp.
    + simpl. eexists. split; [rewrite Ht1; reflexivity|]. split; [|reflexivity].
      intros [|[|k]] d H; simpl in H; try discriminate H.
      injection H as <-. reflexivity.
    + simpl.
      destruct (cacheOrWarn_frame env tokenResp w1) as (_ & _ & evs & Ht & Hr & Hs).
      eexists. split; [rewrite Ht, Ht1, <- app_assoc; reflexivity|].
      split.
      * intros k d H. simpl in H. rewrite Hs in H.
        destruct k as [|[|k]]; simpl in H; try discriminate H.
        injection H as <-. reflexivity.
      * simpl. rewrite Hr. reflexivity.
Qed.

(** ** Claim C4 *)

(** C4, as the specification states it, fails: after a 502 response whose
    body is not JSON the loop does not stop.  With a device code that
    lives ten seconds and is polled every five, the page is received on
    the first poll, a second poll is sent at second 11, and the result is
    the timed-out error, not an error that carries the response. *)
Lemma malformed_error_body_counterexample :
  let run := pollForToken (C := decimalTime) auth0 (envOf gatewayThenPending) 3
                          (deviceOf 10 5) world0 in
  malformedError (reply (server (envOf gatewayThenPending) 0)) = true
  /\ fst run = Some (Err (ErrNew "authentication timed out"))
  /\ requests (trace (snd run))
     = [(5000000000, PollRequest DefaultClientID "D1");
        (11000000000, PollRequest DefaultClientID "D1")]
  /\ ~ (exists code description,
          fst run = Some (Err (ErrNew ("authentication error: " ++ code
                                       ++ " - " ++ description)))).
Proof.
  cbv zeta. repeat split; try (vm_compute; reflexivity).
  intros (code & description & H).
  assert (E : fst (pollForToken (C := decimalTime) auth0 (envOf gatewayThenPending) 3
                                (deviceOf 10 5) world0)
              = Some (Err (ErrNew "authentication timed out")))
    by (vm_compute; reflexivity).
  rewrite E in H. simpl in H. discriminate H.
Qed.

Lemma malformedError_classify resp :
  malformedError resp = true -> classify resp = Pending false.
Proof.
  unfold malformedError, classify.
  destruct resp as [|status [body|]]; try discriminate.
  destruct (negb (status =? StatusOK)); [|discriminate].
  destruct (Unmarshal setTokenError zeroTokenError body); [discriminate|reflexivity].
Qed.

(** C4, amended.  A response with a status other than 200 whose body is
    not the JSON of an OAuth error object leaves the poller pending: the
    turn of the loop that receives it surfaces no error, keeps the
    interval as it is, and hands over to the next evaluation of the
    deadline. *)
Theorem malformed_error_body_stays_pending {C : TimeCodec}
        (a : DeviceFlowAuthenticator) (env : Env) (fuel : nat)
        (deviceCode : DeviceCodeResponse) (expiration : Time)
        (interval : Duration) (w : World) :
  now w < expiration ->
  malformedError (reply (server env (calls w))) = true ->
  pollLoop a env (S fuel) deviceCode expiration interval w
  = pollLoop a env fuel deviceCode expiration interval
             (polled a env deviceCode interval w).
Proof.
  intros Hnow Hbad. rewrite pollLoop_S.
  apply Z.ltb_lt in Hnow. rewrite Hnow.
  rewrite (malformedError_classify _ Hbad). reflexivity.
Qed.

Lemma malformed_error_body_stays_pending_witness :
  now world0 < 10000000000
  /\ malformedError (reply (server (envOf gatewayThenPending) (calls world0))) = true
  /\ pollLoop (C := decimalTime) auth0 (envOf gatewayThenPending) 3 (deviceOf 10 5)
              10000000000 5000000000 world0
     = pollLoop (C := decimalTime) auth0 (envOf gatewayThenPending) 2 (deviceOf 10 5)
                10000000000 5000000000
                (polled auth0 (envOf gatewayThenPending) (deviceOf 10 5) 5000000000 world0).
Proof.
  split; [reflexivity|]. split; [reflexivity|].
  apply (malformed_error_body_stays_pending (C := decimalTime) auth0
           (envOf gatewayThenPending) 2 (deviceOf 10 5) 10000000000 5000000000 world0);
    reflexivity.
Defined.

(** ** Claim C5 *)

Lemma slowDowns_nonneg env k : forall start, 0 <= slowDowns env start k.
Proof.
  induction k as [|k IH]; intros start; simpl; [lia|].
  specialize (IH (S start)).
  destruct (isSlowDown (reply (server env start))); lia.
Qed.

Lemma initialInterval_range deviceCode :
  Int64.min_int <= initialInterval deviceCode <= Int64.max_int.
Proof.
  unfold initialInterval.
  destruct (Int64.mul (Interval deviceCode) Second =? 0); apply wrap_range.
Qed.

(** The interval of a sleep, from the interval of the sleep before it. *)
Lemma intervalAt_next env k :
  forall start interval,
    intervalAt env start interval (S k)
    = if isSlowDown (reply (server env (start + k)))
      then Int64.add (intervalAt env start interval k) (Int64.mul 5 Second)
      else intervalAt env start interval k.
Proof.
  induction k as [|k IH]; intros start interval.
  - simpl. rewrite Nat.add_0_r. reflexivity.
  - change (intervalAt env start interval (S (S k)))
      with (intervalAt env (S start)
              (if isSlowDown (reply (server env start))
               then Int64.add interval (Int64.mul 5 Second) else interval) (S k)).
    rewrite IH. rewrite Nat.add_succ_comm. reflexivity.
Qed.

(** As long as the sum fits 64 bits, the interval is the one the loop
    was entered with plus five seconds for each [slow_down]. *)
Lemma intervalAt_sum env k :
  forall start interval,
    Int64.min_int <= interval ->
    interval + 5 * Second * slowDowns env start k <= Int64.max_int ->
    intervalAt env start interval k = interval + 5 * Second * slowDowns env start k.
Proof.
  induction k as [|k IH]; intros start interval Hlo Hhi;
    cbn [slowDowns intervalAt] in *; [lia|].
  pose proof (slowDowns_nonneg env k (S start)) as Hk.
  change (5 * Second) with 5000000000 in *.
  unfold Int64.min_int, Int64.max_int in *.
  destruct (isSlowDown (reply (server env start))).
  - assert (E : Int64.add interval (Int64.mul 5 Second) = interval + 5000000000).
    { unfold Int64.add. rewrite five_seconds. apply wrap_id.
      unfold Int64.min_int, Int64.max_int. lia. }
    rewrite E. rewrite IH; lia.
  - rewrite IH; lia.
Qed.

(** C5, as the specification states it, fails where the sum leaves the
    range of a [Duration]: with an interval of 9223372032 seconds, a
    [slow_down] reply makes the next interval negative, so the second
    sleep is shorter than the first and is not the first plus five
    seconds. *)
Lemma slow_down_overflow_counterexample :
  let run := pollForToken (C := decimalTime) auth0 (envOf slowDownThenExpired) 3
                          (deviceOf 9223372036 9223372032) world0 in
  isSlowDown (reply (server (envOf slowDownThenExpired) 0)) = true
  /\ sleeps (trace (snd run)) = [9223372032000000000; -9223372036709551616]
  /\ ~ (exists d d', sleeps (trace (snd run)) = [d; d'] /\ d < d').
Proof.
  cbv zeta. split; [reflexivity|]. split; [vm_compute; reflexivity|].
  intros (d & d' & H & Hlt).
  assert (E : sleeps (trace (snd (pollForToken (C := decimalTime) auth0
                 (envOf slowDownThenExpired) 3 (deviceOf 9223372036 9223372032) world0)))
              = [9223372032000000000; -9223372036709551616])
    by (vm_compute; reflexivity).
  rewrite E in H. injection H as <- <-. lia.
Qed.

(** C5, amended.  The [k]-th sleep of the poll loop lasts the initial
    interval plus five seconds for each [slow_down] among the replies
    before it, as long as that sum is a [Duration]; and when the reply
    just before a sleep is [slow_down] and five more seconds still fit,
    that sleep is five seconds longer than the one before it, hence
    strictly longer. *)
Theorem slow_down_lengthens_interval {C : TimeCodec}
        (a : DeviceFlowAuthenticator) (env : Env) (fuel : nat)
        (deviceCode : DeviceCodeResponse) (w : World) (k : nat) (d : Duration) :
  nth_error (sleeps (emitted w (snd (pollForToken a env fuel deviceCode w)))) k = Some d ->
  initialInterval deviceCode + 5 * Second * slowDowns env (calls w) k <= Int64.max_int ->
  d = initialInterval deviceCode + 5 * Second * slowDowns env (calls w) k
  /\ forall d',
      isSlowDown (reply (server env (calls w + k))) = true ->
      nth_error (sleeps (emitted w (snd (pollForToken a env fuel deviceCode w)))) (S k)
      = Some d' ->
      d + 5 * Second <= Int64.max_int ->
      d' = d + 5 * Second /\ d < d'.
Proof.
  intros Hk Hfit. rewrite pollForToken_eq in *.
  destruct (pollLoop_trace a env deviceCode
              (now w + Int64.mul (dcExpiresIn deviceCode) Second) fuel
              (initialInterval deviceCode) w) as (evs & Ht & Hs & _).
  rewrite (emitted_app _ _ _ Ht) in *.
  pose proof (initialInterval_range deviceCode) as [Hlo _].
  pose proof (slowDowns_nonneg env k (calls w)) as Hn.
  assert (Ed : d = initialInterval deviceCode + 5 * Second * slowDowns env (calls w) k).
  { rewrite (Hs _ _ Hk). apply intervalAt_sum; assumption. }
  split; [exact Ed|].
  intros d' Hslow Hk' Hfit'.
  apply Hs in Hk'. rewrite intervalAt_next, Hslow in Hk'.
  rewrite <- (Hs _ _ Hk) in Hk'.
  unfold Int64.add in Hk'. rewrite five_seconds in Hk'.
  change (5 * Second) with 5000000000 in *.
  unfold Int64.min_int, Int64.max_int in *.
  rewrite wrap_id in Hk' by (unfold Int64.min_int, Int64.max_int; lia). lia.
Qed.

Lemma slow_down_lengthens_interval_witness :
  let run := pollForToken (C := decimalTime) auth0 (envOf slowDownThenExpired) 3
                          (deviceOf 900 5) world0 in
  nth_error (sleeps (emitted world0 (snd run))) 0 = Some 5000000000
  /\ 5000000000 = initialInterval (deviceOf 900 5)
                  + 5 * Second * slowDowns (envOf slowDownThenExpired) (calls world0) 0
  /\ nth_error (sleeps (emitted world0 (snd run))) 1 = Some 10000000000
  /\ 10000000000 = 5000000000 + 5 * Second /\ 5000000000 < 10000000000.
Proof.
  cbv zeta.
  destruct (slow_down_lengthens_interval (C := decimalTime) auth0
              (envOf slowDownThenExpired) 3 (deviceOf 900 5) world0 0 5000000000)
    as [E Hnext].
  - vm_compute. reflexivity.
  - vm_compute. discriminate.
  - split; [vm_compute; reflexivity|]. split; [exact E|].
    split; [vm_compute; reflexivity|].
    apply Hnext.
    + reflexivity.
    + vm_compute. reflexivity.
    + vm_compute. discriminate.
Defined.

(** ** Claim C10 *)

(** C10, as stated, fails below the range in which the lifetime in
    nanoseconds is a [Duration]: [expires_in = -10000000000] wraps to a
    lifetime of 8446744073709551616 ns, so the loop is entered, sleeps
    five seconds and sends a poll request; the result is the error of
    that poll, not the timed-out error. *)
Lemma negative_lifetime_overflow_counterexample :
  let deviceCode := deviceOf (-10000000000) 5 in
  let run := pollForToken (C := decimalTime) auth0 (envOf (always expiredReply)) 1
                          deviceCode world0 in
  dcExpiresIn deviceCode <= 0
  /\ Int64.mul (dcExpiresIn deviceCode) Second = 8446744073709551616
  /\ sleeps (trace (snd run)) = [5000000000]
  /\ requests (trace (snd run)) = [(5000000000, PollRequest DefaultClientID "D1")]
  /\ fst run = Some (Err (ErrNew "device code expired - please try again")).
Proof.
  cbv zeta. split; [vm_compute; discriminate|].
  repeat split; vm_compute; reflexivity.
Qed.

Lemma mul_Second_exact n :
  -9223372036 <= n <= 9223372036 -> Int64.mul n Second = n * Second.
Proof.
  intros H. unfold Int64.mul. apply wrap_id.
  unfold Int64.min_int, Int64.max_int, Second. lia.
Qed.

(** A device code that expires before its first poll is due is polled
    exactly once, whatever the reply, and that poll is sent after the
    deadline. *)
Lemma single_late_poll {C : TimeCodec} a env fuel deviceCode w :
  0 < dcExpiresIn deviceCode ->
  dcExpiresIn deviceCode < Interval deviceCode ->
  Interval deviceCode <= 9223372036 ->
  requests (emitted w (snd (pollForToken a env (S (S fuel)) deviceCode w)))
  = [(now w + Interval deviceCode * Second,
      PollRequest (clientID a) (DeviceCode deviceCode))]
  /\ now w + dcExpiresIn deviceCode * Second < now w + Interval deviceCode * Second.
Proof.
  intros Hpos Hlt Hmax. split; [|unfold Second; lia].
  rewrite pollForToken_eq.
  rewrite (mul_Second_exact (dcExpiresIn deviceCode)) by lia.
  assert (Ei : initialInterval deviceCode = Interval deviceCode * Second).
  { unfold initialInterval. rewrite (mul_Second_exact (Interval deviceCode)) by lia.
    destruct (Z.eqb_spec (Interval deviceCode * Second) 0) as [E|_]; [|reflexivity].
    unfold Second in E. lia. }
  rewrite Ei. set (interval := Interval deviceCode * Second).
  set (expiration := now w + dcExpiresIn deviceCode * Second).
  assert (Hiv : 0 < interval) by (unfold interval, Second; lia).
  assert (Hexp : expiration < now w + interval)
    by (unfold expiration, interval, Second; lia).
  rewrite pollLoop_S.
  assert (Hin : (now w <? expiration) = true)
    by (apply Z.ltb_lt; unfold expiration, Second; lia).
  rewrite Hin.
  set (w1 := polled a env deviceCode interval w).
  assert (Ht1 : trace w1 = trace w ++
            [(now w, Slept interval);
             (now w + interval, Sent (PollRequest (clientID a) (DeviceCode deviceCode)))]).
  { unfold w1, polled. simpl. rewrite Z.max_r by lia. reflexivity. }
  assert (Hout : (now w1 <? expiration) = false).
  { apply Z.ltb_ge. unfold w1. simpl.
    pose proof (Pos2Z.is_pos (latency (server env (calls w)))). lia. }
  destruct (classify (reply (server env (calls w)))) as [slow|e|tokenResp].
  - rewrite pollLoop_S, Hout. simpl. rewrite (emitted_app _ _ _ Ht1). reflexivity.
  - simpl. rewrite (emitted_app _ _ _ Ht1). reflexivity.
  - simpl. destruct (cacheOrWarn_frame env tokenResp w1) as (_ & _ & evs & Ht & Hr & _).
    rewrite Ht1, <- app_assoc in Ht.
    rewrite (emitted_app _ _ _ Ht). simpl. rewrite Hr. reflexivity.
Qed.

(** C10, amended.  For every device-code response whose [expires_in] is
    at most zero and whose lifetime, the 64-bit product of [expires_in]
    and one second that the code computes, is at most zero as well (as it
    is for every [expires_in] from -9223372036 to 0), the poller sends no
    request and does not sleep: it returns the timed-out error and leaves
    the world as it found it.  And there are inputs with
    [0 < expires_in < interval] for which exactly one poll request is
    sent, at a time after the deadline has passed. *)
Theorem expired_on_arrival :
  (forall (C : TimeCodec) (a : DeviceFlowAuthenticator) (env : Env) (fuel : nat)
          (deviceCode : DeviceCodeResponse) (w : World),
      dcExpiresIn deviceCode <= 0 ->
      Int64.mul (dcExpiresIn deviceCode) Second <= 0 ->
      pollForToken a env (S fuel) deviceCode w
      = (Some (Err (ErrNew "authentication timed out")), w))
  /\ (forall n, -9223372036 <= n <= 0 -> Int64.mul n Second <= 0)
  /\ (exists (deviceCode : DeviceCodeResponse) (env : Env) (w : World) (sentAt : Time),
        0 < dcExpiresIn deviceCode < Interval deviceCode
        /\ (forall fuel,
              fst (pollForToken (C := decimalTime) auth0 env (S (S fuel)) deviceCode w)
              = Some (Err (ErrNew "authentication timed out"))
              /\ requests (emitted w (snd (pollForToken (C := decimalTime) auth0 env
                                                          (S (S fuel)) deviceCode w)))
                 = [(sentAt, PollRequest (clientID auth0) (DeviceCode deviceCode))])
        /\ now w + dcExpiresIn deviceCode * Second < sentAt).
Proof.
  split; [|split].
  - intros C a env fuel deviceCode w _ H.
    rewrite pollForToken_eq, pollLoop_S.
    assert (E : (now w <? now w + Int64.mul (dcExpiresIn deviceCode) Second) = false)
      by (apply Z.ltb_ge; lia).
    rewrite E. reflexivity.
  - intros n H. rewrite mul_Second_exact by lia. unfold Second. lia.
  - exists (deviceOf 1 5), (envOf (always pendingReply)), world0, 5000000000.
    split; [simpl; lia|]. split; [|reflexivity].
    intros fuel. split.
    + rewrite pollForToken_eq. change (S (S fuel)) with (2 + fuel)%nat.
      destruct (pollLoop (C := decimalTime) auth0 (envOf (always pendingReply)) 2
                         (deviceOf 1 5)
                         (now world0 + Int64.mul (dcExpiresIn (deviceOf 1 5)) Second)
                         (initialInterval (deviceOf 1 5)) world0) as [r w'] eqn:E.
      assert (Er : r = timedOut).
      { change r with (fst (r, w')). rewrite <- E. vm_compute. reflexivity. }
      subst r. rewrite (pollLoop_fuel_mono _ _ _ _ _ _ _ _ _ fuel E). reflexivity.
    + apply (single_late_poll (C := decimalTime) auth0 (envOf (always pendingReply))
               fuel (deviceOf 1 5) world0); simpl; lia.
Qed.

Lemma expired_on_arrival_witness :
  dcExpiresIn (deviceOf (-60) 5) <= 0
  /\ Int64.mul (dcExpiresIn (deviceOf (-60) 5)) Second <= 0
  /\ pollForToken (C := decimalTime) auth0 (envOf (always pendingReply)) 1
                  (deviceOf (-60) 5) world0
     = (Some (Err (ErrNew "authentication timed out")), world0).
Proof.
  split; [simpl; lia|]. split; [vm_compute; discriminate|].
  apply (proj1 expired_on_arrival decimalTime auth0 (envOf (always pendingReply)) O
               (deviceOf (-60) 5) world0).
  - simpl. lia.
  - vm_compute. discriminate.
Defined.

(** ** Claim C2 *)

Lemma PostForm_eq env r w :
  PostForm env r w = (reply (server env (calls w)), posted env r w).
Proof. reflexivity. Qed.

Lemma refreshToken_eq {C : TimeCodec} a env refresh w :
  refreshToken a env refresh w =
  let w1 := posted env (RefreshRequest (clientID a) refresh AzureDevOpsScope) w in
  match reply (server env (calls w)) with
  | TransportError => (Err ErrNet, w1)
  | Response status body =>
      if negb (status =? StatusOK) then (Err (ErrNew "failed to refresh token"), w1)
      else match Decode setTokenResponse zeroTokenResponse body with
           | None => (Err ErrJSON, w1)
           | Some tokenResp => (Ok (trAccessToken tokenResp), cacheOrWarn env tokenResp w1)
           end
  end.
Proof.
  unfold refreshToken. unfold bind at 1. rewrite PostForm_eq. cbv zeta.
  destruct (reply (server env (calls w))) as [|status body]; [reflexivity|].
  destruct (negb (status =? StatusOK)); [reflexivity|].
  destruct (Decode setTokenResponse zeroTokenResponse body) as [tokenResp|]; [|reflexivity].
  unfold bind, cacheOrWarn, ret.
  destruct (saveTokenCache env tokenResp _) as [[err|] w2]; reflexivity.
Qed.

Lemma polls_not_refresh l : forallb isPoll l = true -> filter isRefresh l = [].
Proof.
  induction l as [|[t r] l IH]; [reflexivity|].
  simpl. intros H. apply andb_true_iff in H as [Hr Hl].
  destruct r; try discriminate Hr. simpl. auto.
Qed.

(** The device flow sends no refresh request. *)
Lemma authenticateWithDeviceFlow_trace {C : TimeCodec} a env fuel w :
  exists evs,
    trace (snd (authenticateWithDeviceFlow a env fuel w)) = trace w ++ evs
    /\ filter isRefresh (requests evs) = [].
Proof.
  unfold authenticateWithDeviceFlow. unfold bind at 1.
  unfold requestDeviceCode. unfold bind at 1. rewrite PostForm_eq.
  set (w1 := posted env (DeviceCodeRequest (clientID a) AzureDevOpsScope) w).
  assert (Ht1 : trace w1 = trace w ++
            [(now w, Sent (DeviceCodeRequest (clientID a) AzureDevOpsScope))])
    by reflexivity.
  assert (Hstop : forall r : option (result string),
            exists evs, trace (snd (r, w1)) = trace w ++ evs
                        /\ filter isRefresh (requests evs) = []).
  { intros r. eexists. split; [exact Ht1|reflexivity]. }
  destruct (reply (server env (calls w))) as [|status body]; [apply Hstop|].
  destruct (negb (status =? StatusOK)); [apply Hstop|].
  destruct (Decode setDeviceCode zeroDeviceCode body) as [deviceCode|]; [|apply Hstop].
  unfold ret at 1. unfold bind at 1 2 3. unfold emit at 1 2.
  match goal with
  | |- context [pollForToken a env fuel deviceCode ?w2] => set (w3 := w2)
  end.
  rewrite pollForToken_eq.
  destruct (pollLoop_trace a env deviceCode
              (now w3 + Int64.mul (dcExpiresIn deviceCode) Second) fuel
              (initialInterval deviceCode) w3) as (evs & Ht & _ & Hp).
  destruct (pollLoop a env fuel deviceCode _ _ w3) as [r w4]. simpl in Ht.
  assert (Ht4 : trace w4 = trace w ++
            ((now w, Sent (DeviceCodeRequest (clientID a) AzureDevOpsScope))
             :: (now w1, Prompted (VerificationURI deviceCode) (UserCode deviceCode))
             :: (now w1, Browser (VerificationURI deviceCode)) :: evs)).
  { rewrite Ht. unfold w3. simpl. rewrite <- !app_assoc. reflexivity. }
  assert (Hdone : forall r' : option (result string),
            exists evs', trace (snd (r', w4)) = trace w ++ evs'
                         /\ filter isRefresh (requests evs') = []).
  { intros r'. eexists. split; [exact Ht4|]. simpl. apply polls_not_refresh, Hp. }
  destruct r as [[token|err]|]; apply Hdone.
Qed.

(** C2. When the cache holds a credential that expires within five
    minutes (or has expired) and carries a refresh token, [GetToken]
    sends exactly one refresh request, whether or not the device flow
    follows; and when the token endpoint answers it with status 200 and a
    token response, [GetToken] returns the new access token and the
    refresh request is the only request it sends: there is no
    device-code request and no poll. *)
Theorem GetToken_refreshes_once {C : TimeCodec}
        (a : DeviceFlowAuthenticator) (env : Env) (fuel : nat)
        (w : World) (token : TokenCache) :
  fst (loadCachedToken w) = Ok token ->
  ExpiresAt token <= now w + 5 * Minute ->
  RefreshToken token <> ""%string ->
  filter isRefresh (requests (emitted w (snd (GetToken a env fuel w))))
  = [(now w, RefreshRequest (clientID a) (RefreshToken token) AzureDevOpsScope)]
  /\ forall body tokenResp,
      reply (server env (calls w)) = Response StatusOK body ->
      Decode setTokenResponse zeroTokenResponse body = Some tokenResp ->
      fst (GetToken a env fuel w) = Some (Ok (trAccessToken tokenResp))
      /\ requests (emitted w (snd (GetToken a env fuel w)))
         = [(now w, RefreshRequest (clientID a) (RefreshToken token) AzureDevOpsScope)].
Proof.
  intros Hload Hold Hrt.
  set (req := RefreshRequest (clientID a) (RefreshToken token) AzureDevOpsScope).
  set (w1 := posted env req w).
  assert (Ht1 : trace w1 = trace w ++ [(now w, Sent req)]) by reflexivity.
  assert (E : GetToken a env fuel w =
              match refreshToken a env (RefreshToken token) w with
              | (Ok newToken, w2) => (Some (Ok newToken), w2)
              | (Err _, w2) => authenticateWithDeviceFlow a env fuel w2
              end).
  { unfold GetToken. unfold bind at 1. rewrite (loadCachedToken_eq w), Hload.
    unfold bind at 1. unfold timeNow at 1. unfold Before, Add. rewrite five_minutes.
    replace (5 * Minute) with 300000000000 in Hold by reflexivity.
    apply Z.ltb_ge in Hold. rewrite Hold.
    apply String.eqb_neq in Hrt. rewrite Hrt.
    change (negb false) with true. cbv iota.
    unfold bind at 1.
    destruct (refreshToken a env (RefreshToken token) w) as [[newToken|err] w2];
      reflexivity. }
  assert (Hflow : forall err : error,
            filter isRefresh
              (requests (emitted w (snd (authenticateWithDeviceFlow a env fuel w1))))
            = [(now w, req)]).
  { intros _.
    destruct (authenticateWithDeviceFlow_trace a env fuel w1) as (evs & Ht & Hf).
    rewrite Ht1, <- app_assoc in Ht. rewrite (emitted_app _ _ _ Ht).
    simpl. rewrite Hf. reflexivity. }
  assert (Hok : forall tokenResp,
            requests (emitted w (cacheOrWarn env tokenResp w1)) = [(now w, req)]).
  { intros tokenResp.
    destruct (cacheOrWarn_frame env tokenResp w1) as (_ & _ & evs & Ht & Hr & _).
    rewrite Ht1, <- app_assoc in Ht. rewrite (emitted_app _ _ _ Ht).
    simpl. rewrite Hr. reflexivity. }
  rewrite E, refreshToken_eq. fold req. fold w1. cbv zeta.
  split.
  - destruct (reply (server env (calls w))) as [|status body];
      [apply (Hflow ErrNet)|].
    destruct (negb (status =? StatusOK)); [apply (Hflow ErrNet)|].
    destruct (Decode setTokenResponse zeroTokenResponse body) as [tokenResp|];
      [|apply (Hflow ErrNet)].
    simpl. rewrite Hok. reflexivity.
  - intros body tokenResp Hreply Hdec.
    rewrite Hreply. simpl. rewrite Hdec. simpl. split; [reflexivity|apply Hok].
Qed.

Lemma GetToken_refreshes_once_witness :
  let w := cachedWorld "T1" "R1" "1000000000000" 900000000000 in
  let run := GetToken (C := decimalTime) auth0 (envOf grantsAtOnce) 0 w in
  filter isRefresh (requests (emitted w (snd run)))
  = [(900000000000, RefreshRequest DefaultClientID "R1" AzureDevOpsScope)]
  /\ fst run = Some (Ok "T2"%string)
  /\ requests (emitted w (snd run))
     = [(900000000000, RefreshRequest DefaultClientID "R1" AzureDevOpsScope)].
Proof.
  cbv zeta.
  destruct (GetToken_refreshes_once (C := decimalTime) auth0 (envOf grantsAtOnce) 0
              (cachedWorld "T1" "R1" "1000000000000" 900000000000)
              {| AccessToken := "T1"; RefreshToken := "R1"; ExpiresAt := 1000000000000 |})
    as [Hone Hnew].
  - reflexivity.
  - vm_compute. discriminate.
  - discriminate.
  - split; [exact Hone|].
    apply (Hnew (tokenBody "T2" "R2" 3600)
                {| trAccessToken := "T2"; TokenType := ""; ExpiresIn := 3600;
                   trRefreshToken := "R2"; Scope := "" |}); reflexivity.
Defined.

(** ** Claim C6 *)

Lemma posted_frame env r w1 w2 :
  sameButFile w1 w2 -> sameButFile (posted env r w1) (posted env r w2).
Proof.
  unfold sameButFile, posted. intros (Hn & Hc & Ht). simpl.
  rewrite Hn, Hc, Ht. auto.
Qed.

Lemma polled_frame a env deviceCode interval w1 w2 :
  sameButFile w1 w2 ->
  sameButFile (polled a env deviceCode interval w1) (polled a env deviceCode interval w2).
Proof.
  unfold sameButFile, polled. intros (Hn & Hc & Ht). simpl.
  rewrite Hn, Hc, Ht. auto.
Qed.

Lemma emit_frame e w1 w2 :
  sameButFile w1 w2 -> sameButFile (snd (emit e w1)) (snd (emit e w2)).
Proof.
  unfold sameButFile, emit. intros (Hn & Hc & Ht). simpl.
  rewrite Hn, Ht. auto.
Qed.

(** Whether saving succeeds does not depend on what the file held. *)
Lemma saveTokenCache_result {C : TimeCodec} env tokenResp w1 w2 :
  sameButFile w1 w2 ->
  fst (saveTokenCache env tokenResp w1) = fst (saveTokenCache env tokenResp w2).
Proof.
  intros (Hn & _ & _).
  unfold saveTokenCache, bind, MkdirAll, ret, timeNow, WriteFile.
  destruct (mkdirOK env); [|reflexivity].
  rewrite Hn. destruct (MarshalIndent _); [|reflexivity].
  destruct (writeOK env); reflexivity.
Qed.

Lemma cacheOrWarn_same {C : TimeCodec} env tokenResp w1 w2 :
  sameButFile w1 w2 ->
  sameButFile (cacheOrWarn env tokenResp w1) (cacheOrWarn env tokenResp w2).
Proof.
  intros H. unfold cacheOrWarn.
  pose proof (saveTokenCache_result env tokenResp w1 w2 H) as Hres.
  pose proof (saveTokenCache_frame env tokenResp w1) as H1.
  pose proof (saveTokenCache_frame env tokenResp w2) as H2.
  destruct (saveTokenCache env tokenResp w1) as [e1 u1].
  destruct (saveTokenCache env tokenResp w2) as [e2 u2].
  simpl in *. subst e2.
  assert (Hu : sameButFile u1 u2).
  { unfold sameButFile in *. destruct H as (? & ? & ?), H1 as (? & ? & ?), H2 as (? & ? & ?).
    repeat split; congruence. }
  destruct e1; [apply emit_frame|]; exact Hu.
Qed.

(** The poll loop does not look at the cache file. *)
Lemma pollLoop_frame {C : TimeCodec} a env deviceCode expiration fuel :
  forall interval w1 w2,
    sameButFile w1 w2 ->
    fst (pollLoop a env fuel deviceCode expiration interval w1)
    = fst (pollLoop a env fuel deviceCode expiration interval w2)
    /\ sameButFile (snd (pollLoop a env fuel deviceCode expiration interval w1))
                   (snd (pollLoop a env fuel deviceCode expiration interval w2)).
Proof.
  induction fuel as [|fuel IH]; intros interval w1 w2 H.
  - simpl. auto.
  - rewrite !pollLoop_S.
    pose proof H as (Hn & Hc & _). rewrite Hn, Hc.
    destruct (now w2 <? expiration); [|simpl; auto].
    pose proof (polled_frame a env deviceCode interval w1 w2 H) as Hp.
    destruct (classify (reply (server env (calls w2)))) as [slow|e|tokenResp].
    + apply IH, Hp.
    + simpl. auto.
    + simpl. split; [reflexivity|]. apply cacheOrWarn_same, Hp.
Qed.

Lemma requestDeviceCode_eq a env w :
  requestDeviceCode a env w =
  (match reply (server env (calls w)) with
   | TransportError => Err ErrNet
   | Response status body =>
       if negb (status =? StatusOK)
       then Err (ErrBody "device code request failed: " body)
       else match Decode setDeviceCode zeroDeviceCode body with
            | None => Err ErrJSON
            | Some deviceCode => Ok deviceCode
            end
   end,
   posted env (DeviceCodeRequest (clientID a) AzureDevOpsScope) w).
Proof.
  unfold requestDeviceCode. unfold bind at 1. rewrite PostForm_eq.
  destruct (reply (server env (calls w))) as [|status body]; [reflexivity|].
  destruct (negb (status =? StatusOK)); [reflexivity|].
  destruct (Decode setDeviceCode zeroDeviceCode body); reflexivity.
Qed.

Lemma authenticateWithDeviceFlow_eq {C : TimeCodec} a env fuel w :
  authenticateWithDeviceFlow a env fuel w =
  let w1 := posted env (DeviceCodeRequest (clientID a) AzureDevOpsScope) w in
  match fst (requestDeviceCode a env w) with
  | Err err => (Some (Err (ErrWrap "failed to request device code: " err)), w1)
  | Ok deviceCode =>
      (match fst (pollForToken a env fuel deviceCode (prompted deviceCode w1)) with
       | None => None
       | Some (Err err) => Some (Err (ErrWrap "authentication failed: " err))
       | Some (Ok token) => Some (Ok token)
       end,
       snd (pollForToken a env fuel deviceCode (prompted deviceCode w1)))
  end.
Proof.
  unfold authenticateWithDeviceFlow. unfold bind at 1.
  rewrite requestDeviceCode_eq. cbv zeta. cbn [fst].
  match goal with
  | |- context [match ?x with Ok _ => _ | Err _ => _ end] =>
      destruct x as [deviceCode|err]
  end; [|reflexivity].
  unfold bind at 1 2 3. unfold emit at 1 2. cbn [snd fst now trace cacheFile calls].
  unfold prompted. cbn [now trace cacheFile calls posted]. rewrite <- app_assoc.
  cbn [app].
  match goal with
  | |- context [pollForToken a env fuel deviceCode ?u] =>
      destruct (pollForToken a env fuel deviceCode u) as [[[token|err]|] w4]
  end; reflexivity.
Qed.

(** Nor does the device flow as a whole. *)
Lemma authenticateWithDeviceFlow_frame {C : TimeCodec} a env fuel w1 w2 :
  sameButFile w1 w2 ->
  fst (authenticateWithDeviceFlow a env fuel w1)
  = fst (authenticateWithDeviceFlow a env fuel w2)
  /\ sameButFile (snd (authenticateWithDeviceFlow a env fuel w1))
                 (snd (authenticateWithDeviceFlow a env fuel w2)).
Proof.
  intros H.
  rewrite !authenticateWithDeviceFlow_eq, !requestDeviceCode_eq. cbv zeta. cbn [fst].
  pose proof (posted_frame env (DeviceCodeRequest (clientID a) AzureDevOpsScope) w1 w2 H)
    as Hp.
  pose proof H as (_ & Hc & _). rewrite Hc.
  match goal with
  | |- context [match ?x with Ok _ => _ | Err _ => _ end] =>
      destruct x as [deviceCode|err]
  end; [|simpl; auto].
  set (u1 := prompted deviceCode (posted env _ w1)).
  set (u2 := prompted deviceCode (posted env _ w2)).
  assert (Hq : sameButFile u1 u2).
  { destruct Hp as (Hn & Hcc & Ht). unfold sameButFile, u1, u2, prompted.
    cbn [now calls trace]. rewrite Hn, Hcc, Ht. auto. }
  rewrite !pollForToken_eq.
  pose proof Hq as (Hnow & _ & _). rewrite Hnow.
  destruct (pollLoop_frame a env deviceCode
              (now u2 + Int64.mul (dcExpiresIn deviceCode) Second) fuel
              (initialInterval deviceCode) u1 u2 Hq) as [Hr Hw].
  cbn [fst snd]. rewrite Hr. split; [reflexivity|exact Hw].
Qed.

(** C6. A cache file that does not decode is met like a missing cache
    file.  Loading it reports an error (the decoding error, where a
    missing file reports that it does not exist) and not an empty
    credential; [GetToken] goes on to the device flow; and its result,
    the requests it sends, the clock and the whole trace are the ones of
    [GetToken] run without any cache file. *)
Theorem corrupt_cache_like_no_cache {C : TimeCodec}
        (a : DeviceFlowAuthenticator) (env : Env) (fuel : nat)
        (w : World) (data : bytes) :
  cacheFile w = Some data ->
  Unmarshal setTokenCache zeroTokenCache data = None ->
  let absent := {| now := now w; cacheFile := None; calls := calls w; trace := trace w |} in
  fst (loadCachedToken w) = Err ErrJSON
  /\ fst (loadCachedToken absent) = Err ErrNotExist
  /\ GetToken a env fuel w = authenticateWithDeviceFlow a env fuel w
  /\ fst (GetToken a env fuel w) = fst (GetToken a env fuel absent)
  /\ sameButFile (snd (GetToken a env fuel w)) (snd (GetToken a env fuel absent)).
Proof.
  intros Hfile Hbad absent.
  assert (L1 : loadCachedToken w = (Err ErrJSON, w)).
  { unfold loadCachedToken, bind, ReadFile. rewrite Hfile, Hbad. reflexivity. }
  assert (L2 : loadCachedToken absent = (Err ErrNotExist, absent)) by reflexivity.
  assert (G1 : GetToken a env fuel w = authenticateWithDeviceFlow a env fuel w).
  { unfold GetToken. unfold bind at 1. rewrite L1. reflexivity. }
  assert (G2 : GetToken a env fuel absent = authenticateWithDeviceFlow a env fuel absent).
  { unfold GetToken. unfold bind at 1. rewrite L2. reflexivity. }
  rewrite L1, L2. split; [reflexivity|]. split; [reflexivity|]. split; [exact G1|].
  rewrite G1, G2.
  apply authenticateWithDeviceFlow_frame. unfold sameButFile, absent. simpl. auto.
Qed.

(** A file that holds the empty JSON object is not corrupt for
    [json.Unmarshal]: it loads as the zero credential, which has expired
    and has no refresh token. *)
Example empty_object_loads :
  fst (loadCachedToken (C := decimalTime)
         {| now := 0; cacheFile := Some (JSONText (JObj []) false);
            calls := O; trace := [] |})
  = Ok zeroTokenCache.
Proof. reflexivity. Qed.

Lemma corrupt_cache_like_no_cache_witness :
  let run := GetToken (C := decimalTime) auth0 (envOf deviceThenGrant) 5 in
  fst (loadCachedToken (C := decimalTime) corruptWorld) = Err ErrJSON
  /\ fst (run corruptWorld) = Some (Ok "T1"%string)
  /\ fst (run corruptWorld) = fst (run world0)
  /\ sameButFile (snd (run corruptWorld)) (snd (run world0)).
Proof.
  cbv zeta.
  destruct (corrupt_cache_like_no_cache (C := decimalTime) auth0 (envOf deviceThenGrant) 5
              corruptWorld NotJSON eq_refl eq_refl) as (H1 & _ & _ & H4 & H5).
  split; [exact H1|]. split; [vm_compute; reflexivity|]. split; [exact H4|exact H5].
Defined.

(** ** Claim C7 *)

(** C7. When the token endpoint has answered a refresh request with a
    token response and writing the cache then fails, [refreshToken] still
    returns the new access token with a nil error; the failure is written
    to standard error as a warning and the cache file is left as it
    was. *)
Theorem refresh_survives_cache_failure {C : TimeCodec}
        (a : DeviceFlowAuthenticator) (env : Env) (refresh : string) (w : World)
        (body : option bytes) (tokenResp : TokenResponse) (err : error) :
  reply (server env (calls w)) = Response StatusOK body ->
  Decode setTokenResponse zeroTokenResponse body = Some tokenResp ->
  fst (saveTokenCache env tokenResp
         (posted env (RefreshRequest (clientID a) refresh AzureDevOpsScope) w)) = Some err ->
  fst (refreshToken a env refresh w) = Ok (trAccessToken tokenResp)
  /\ warnings (emitted w (snd (refreshToken a env refresh w))) = [err]
  /\ cacheFile (snd (refreshToken a env refresh w)) = cacheFile w.
Proof.
  intros Hreply Hdec Hsave.
  rewrite refreshToken_eq. cbv zeta. rewrite Hreply. simpl negb. cbv iota.
  rewrite Hdec. cbn [fst snd].
  set (w1 := posted env (RefreshRequest (clientID a) refresh AzureDevOpsScope) w) in *.
  split; [reflexivity|].
  unfold cacheOrWarn.
  assert (Hfile : snd (saveTokenCache env tokenResp w1) = w1).
  { revert Hsave. unfold saveTokenCache, bind, MkdirAll, ret, timeNow, WriteFile.
    destruct (mkdirOK env); [|reflexivity].
    destruct (MarshalIndent _); [|reflexivity].
    destruct (writeOK env); [discriminate|reflexivity]. }
  destruct (saveTokenCache env tokenResp w1) as [e w2]. simpl in Hsave, Hfile.
  subst e w2. split.
  - assert (Ht : trace (snd (emit (Warned err) w1))
                 = trace w ++ [(now w, Sent (RefreshRequest (clientID a) refresh
                                                            AzureDevOpsScope));
                               (now w1, Warned err)]).
    { unfold w1. simpl. rewrite <- app_assoc. reflexivity. }
    rewrite (emitted_app _ _ _ Ht). reflexivity.
  - reflexivity.
Qed.

Lemma refresh_survives_cache_failure_witness :
  let run := refreshToken (C := decimalTime) auth0 (readOnlyEnv grantsAtOnce) "R1" world0 in
  fst run = Ok "T2"%string
  /\ warnings (emitted world0 (snd run)) = [ErrPermission]
  /\ cacheFile (snd run) = cacheFile world0.
Proof.
  exact (refresh_survives_cache_failure (C := decimalTime) auth0 (readOnlyEnv grantsAtOnce)
           "R1" world0 (tokenBody "T2" "R2" 3600)
           {| trAccessToken := "T2"; TokenType := ""; ExpiresIn := 3600;
              trRefreshToken := "R2"; Scope := "" |}
           ErrPermission eq_refl eq_refl eq_refl).
Defined.

(** ** Claim C8 *)

(** C8, as stated, fails where the file cannot be removed: [ClearCache]
    returns the error of [os.Remove], the file stays, and
    [HasCachedToken] still answers true. *)
Lemma clear_cache_counterexample :
  let env := readOnlyEnv (always TransportError) in
  let w := cachedWorld "T1" "R1" "1000000000000" 0 in
  fst (ClearCache env w) = Some ErrPermission
  /\ fst (HasCachedToken (snd (ClearCache env w))) = true.
Proof. cbv zeta. split; reflexivity. Qed.

(** C8, amended.  [ClearCache] succeeds when there is no cache file;
    whenever [ClearCache] returns no error, whatever the cache held
    before, [HasCachedToken] answers false afterwards, and clearing a
    second time succeeds again and changes nothing.  A cache file that
    can be removed is removed, without error and with nothing else
    changed; for one that cannot be removed [ClearCache] returns the
    error of [os.Remove], and the file is still there. *)
Theorem clear_cache_then_no_token (env : Env) (w : World) :
  (cacheFile w = None -> ClearCache env w = (None, w))
  /\ (fst (ClearCache env w) = None ->
      fst (HasCachedToken (snd (ClearCache env w))) = false
      /\ ClearCache env (snd (ClearCache env w)) = (None, snd (ClearCache env w)))
  /\ (forall data, cacheFile w = Some data -> removeOK env = true ->
      ClearCache env w = (None, withoutCache w))
  /\ (forall data, cacheFile w = Some data -> removeOK env = false ->
      fst (Remove env w) = Some ErrPermission
      /\ ClearCache env w = (fst (Remove env w), w)
      /\ fst (HasCachedToken (snd (ClearCache env w))) = true).
Proof.
  unfold ClearCache, HasCachedToken, bind, Remove, Stat, ret, withoutCache.
  split; [|split; [|split]].
  - intros H. rewrite H. reflexivity.
  - destruct (cacheFile w) as [data|] eqn:Hfile.
    + destruct (removeOK env); [|discriminate]. simpl. auto.
    + simpl. rewrite Hfile. auto.
  - intros data Hfile Hrm. rewrite Hfile, Hrm. reflexivity.
  - intros data Hfile Hrm. rewrite Hfile, Hrm. cbn. rewrite Hfile. auto.
Qed.

Lemma clear_cache_then_no_token_witness :
  let env := envOf (always TransportError) in
  let locked := readOnlyEnv (always TransportError) in
  let w := cachedWorld "T1" "R1" "1000000000000" 0 in
  ClearCache env world0 = (None, world0)
  /\ fst (HasCachedToken (snd (ClearCache env w))) = false
  /\ ClearCache env w = (None, withoutCache w)
  /\ ClearCache locked w = (Some ErrPermission, w).
Proof.
  cbv zeta.
  destruct (clear_cache_then_no_token (envOf (always TransportError)) world0)
    as (Habsent & _).
  destruct (clear_cache_then_no_token (envOf (always TransportError))
              (cachedWorld "T1" "R1" "1000000000000" 0))
    as (_ & Hcleared & Hremoved & _).
  destruct (clear_cache_then_no_token (readOnlyEnv (always TransportError))
              (cachedWorld "T1" "R1" "1000000000000" 0))
    as (_ & _ & _ & Hlocked).
  split; [exact (Habsent eq_refl)|].
  split; [exact (proj1 (Hcleared eq_refl))|].
  split; [exact (Hremoved _ eq_refl eq_refl)|].
  destruct (Hlocked _ eq_refl eq_refl) as (Herr & Hclear & _).
  rewrite Hclear, Herr. reflexivity.
Defined.

(** ** Claim C9 *)

Lemma decimalTime_roundtrip : codec_roundtrip decimalTime.
Proof.
  intros t s H. simpl in *. injection H as <-.
  rewrite NilZero.isi.
  - simpl. rewrite DecimalZ.of_to. reflexivity.
  - destruct t; simpl; try discriminate.
    intros E. injection E as E. exact (DecimalPos.Unsigned.to_uint_nonnil _ E).
  - destruct t; simpl; try discriminate.
    intros E. injection E as E. exact (DecimalPos.Unsigned.to_uint_nonnil _ E).
Qed.

(** C9. When saving succeeds, the file holds the serialisation of the
    credential and nothing of what it held before, and loading it at once
    gives the record that was saved: the same access token, the same
    refresh token and the same instant of expiry. *)
Theorem save_then_load {C : TimeCodec}
        (env : Env) (tokenResp : TokenResponse) (w : World) :
  codec_roundtrip C ->
  fst (saveTokenCache env tokenResp w) = None ->
  let saved := {| AccessToken := trAccessToken tokenResp;
                  RefreshToken := trRefreshToken tokenResp;
                  ExpiresAt := now w + Int64.mul (ExpiresIn tokenResp) Second |} in
  cacheFile (snd (saveTokenCache env tokenResp w)) = MarshalIndent saved
  /\ fst (loadCachedToken (snd (saveTokenCache env tokenResp w))) = Ok saved.
Proof.
  intros Hcodec Hsave saved.
  revert Hsave. unfold saveTokenCache, bind, MkdirAll, ret, timeNow, WriteFile, Add.
  destruct (mkdirOK env); [|discriminate].
  fold saved.
  destruct (MarshalIndent saved) as [data|] eqn:Hm; [|discriminate].
  destruct (writeOK env); [|discriminate].
  intros _. cbn [snd cacheFile]. split; [reflexivity|].
  unfold loadCachedToken, bind, ReadFile. cbn [cacheFile fst].
  unfold MarshalIndent in Hm.
  destruct (marshalTime (ExpiresAt saved)) as [s|] eqn:Ht; [|discriminate].
  injection Hm as <-.
  apply Hcodec in Ht.
  unfold Unmarshal, decodeValue, decodeFields, setTokenCache.
  change (equalFold "access_token" "access_token") with true.
  change (equalFold "refresh_token" "access_token") with false.
  change (equalFold "refresh_token" "refresh_token") with true.
  change (equalFold "expires_at" "access_token") with false.
  change (equalFold "expires_at" "refresh_token") with false.
  change (equalFold "expires_at" "expires_at") with true.
  cbn [decodeString option_map decodeTime AccessToken RefreshToken ExpiresAt
       zeroTokenCache saved].
  rewrite Ht. reflexivity.
Qed.

Lemma save_then_load_witness :
  let env := envOf (always TransportError) in
  let tokenResp := {| trAccessToken := "T1"; TokenType := "Bearer"; ExpiresIn := 3600;
                      trRefreshToken := "R1"; Scope := "" |} in
  let w := cachedWorld "old" "older" "5" 1000 in
  codec_roundtrip decimalTime
  /\ fst (saveTokenCache (C := decimalTime) env tokenResp w) = None
  /\ fst (loadCachedToken (C := decimalTime)
            (snd (saveTokenCache (C := decimalTime) env tokenResp w)))
     = Ok {| AccessToken := "T1"; RefreshToken := "R1"; ExpiresAt := 3600000001000 |}.
Proof.
  cbv zeta. split; [exact decimalTime_roundtrip|]. split; [reflexivity|].
  apply (save_then_load (C := decimalTime) (envOf (always TransportError))
           {| trAccessToken := "T1"; TokenType := "Bearer"; ExpiresIn := 3600;
              trRefreshToken := "R1"; Scope := "" |}
           (cachedWorld "old" "older" "5" 1000) decimalTime_roundtrip eq_refl).
Defined.


(** * Further properties of the package and of its callers *)

(** ** A failed authentication leaves the cache alone *)

Lemma pollLoop_keeps_file {C : TimeCodec} a env deviceCode expiration fuel :
  forall interval w,
    (forall token, fst (pollLoop a env fuel deviceCode expiration interval w)
                   <> Some (Ok token)) ->
    cacheFile (snd (pollLoop a env fuel deviceCode expiration interval w)) = cacheFile w.
Proof.
  induction fuel as [|fuel IH]; intros interval w H; [reflexivity|].
  rewrite pollLoop_S in *.
  destruct (now w <? expiration); [|reflexivity].
  destruct (classify (reply (server env (calls w)))) as [slow|e|tokenResp].
  - rewrite IH by exact H. reflexivity.
  - reflexivity.
  - exfalso. apply (H (trAccessToken tokenResp)). reflexivity.
Qed.

Lemma authenticateWithDeviceFlow_keeps_file {C : TimeCodec} a env fuel w :
  (forall token, fst (authenticateWithDeviceFlow a env fuel w) <> Some (Ok token)) ->
  cacheFile (snd (authenticateWithDeviceFlow a env fuel w)) = cacheFile w.
Proof.
  rewrite authenticateWithDeviceFlow_eq. cbv zeta.
  destruct (fst (requestDeviceCode a env w)) as [deviceCode|err]; [|reflexivity].
  cbn [fst snd]. intros H. rewrite pollForToken_eq in *.
  rewrite pollLoop_keeps_file; [reflexivity|].
  intros token E. apply (H token). rewrite E. reflexivity.
Qed.

(** [GetToken], step by step. *)
Lemma GetToken_eq {C : TimeCodec} a env fuel w :
  GetToken a env fuel w =
  match fst (loadCachedToken w) with
  | Ok token =>
      if now w + 300000000000 <? ExpiresAt token then
        (Some (Ok (AccessToken token)), w)
      else if negb (RefreshToken token =? "")%string then
        match refreshToken a env (RefreshToken token) w with
        | (Ok newToken, w2) => (Some (Ok newToken), w2)
        | (Err _, w2) => authenticateWithDeviceFlow a env fuel w2
        end
      else authenticateWithDeviceFlow a env fuel w
  | Err _ => authenticateWithDeviceFlow a env fuel w
  end.
Proof.
  unfold GetToken. unfold bind at 1. rewrite (loadCachedToken_eq w). cbn [fst].
  destruct (fst (loadCachedToken w)) as [token|err]; [|reflexivity].
  unfold bind at 1. unfold timeNow at 1. unfold Before, Add. rewrite five_minutes.
  destruct (now w + 300000000000 <? ExpiresAt token); [reflexivity|].
  destruct (negb (RefreshToken token =? "")%string); [|reflexivity].
  unfold bind at 1.
  destruct (refreshToken a env (RefreshToken token) w) as [[newToken|err] w2];
    reflexivity.
Qed.

(** Whenever [GetToken] does not return a token (it returns an error, or
    the run is cut short), the cache file holds what it held before:
    neither a failed refresh nor a failed device flow removes or
    overwrites the cached credential. *)
Theorem GetToken_failure_keeps_cache {C : TimeCodec}
        (a : DeviceFlowAuthenticator) (env : Env) (fuel : nat) (w : World) :
  (forall token, fst (GetToken a env fuel w) <> Some (Ok token)) ->
  cacheFile (snd (GetToken a env fuel w)) = cacheFile w.
Proof.
  rewrite GetToken_eq.
  destruct (fst (loadCachedToken w)) as [token|err].
  2:{ apply authenticateWithDeviceFlow_keeps_file. }
  destruct (now w + 300000000000 <? ExpiresAt token).
  { intros H. exfalso. apply (H (AccessToken token)). reflexivity. }
  destruct (negb (RefreshToken token =? "")%string).
  2:{ apply authenticateWithDeviceFlow_keeps_file. }
  rewrite refreshToken_eq. cbv zeta.
  set (w1 := posted env _ w).
  assert (Hflow : (forall t, fst (authenticateWithDeviceFlow a env fuel w1) <> Some (Ok t)) ->
                  cacheFile (snd (authenticateWithDeviceFlow a env fuel w1)) = cacheFile w).
  { intros H. rewrite authenticateWithDeviceFlow_keeps_file by exact H. reflexivity. }
  destruct (reply (server env (calls w))) as [|status body]; [exact Hflow|].
  destruct (negb (status =? StatusOK)); [exact Hflow|].
  destruct (Decode setTokenResponse zeroTokenResponse body) as [tokenResp|];
    [|exact Hflow].
  intros H. exfalso. apply (H (trAccessToken tokenResp)). reflexivity.
Qed.

Lemma GetToken_failure_keeps_cache_witness :
  let w := cachedWorld "T1" "R1" "5" 1000 in
  (forall token, fst (GetToken (C := decimalTime) auth0 offline 3 w) <> Some (Ok token))
  /\ cacheFile (snd (GetToken (C := decimalTime) auth0 offline 3 w)) = cacheFile w.
Proof.
  cbv zeta.
  assert (H : forall token,
             fst (GetToken (C := decimalTime) auth0 offline 3
                           (cachedWorld "T1" "R1" "5" 1000)) <> Some (Ok token)).
  { intros token E. vm_compute in E. discriminate E. }
  split; [exact H|].
  exact (GetToken_failure_keeps_cache (C := decimalTime) auth0 offline 3
           (cachedWorld "T1" "R1" "5" 1000) H).
Defined.

(** ** The schedule of the poll loop *)

(** Every request of the loop follows a sleep of its own, is sent no
    earlier than that sleep allows, and the next request is sent later
    than this one by more than the sleep between them. *)
Lemma pollLoop_schedule {C : TimeCodec} a env deviceCode expiration fuel :
  forall interval w,
  exists evs,
    trace (snd (pollLoop a env fuel deviceCode expiration interval w)) = trace w ++ evs
    /\ List.length (sleeps evs) = List.length (requests evs)
    /\ (forall t r d, nth_error (requests evs) 0 = Some (t, r) ->
                      nth_error (sleeps evs) 0 = Some d ->
                      now w + Z.max 0 d <= t)
    /\ (forall k t r t' r' d',
           nth_error (requests evs) k = Some (t, r) ->
           nth_error (requests evs) (S k) = Some (t', r') ->
           nth_error (sleeps evs) (S k) = Some d' ->
           t + Z.max 0 d' < t')
    /\ (forall t r, In (t, r) (requests evs) ->
                    r = PollRequest (clientID a) (DeviceCode deviceCode)).
Proof.
  induction fuel as [|fuel IH]; intros interval w.
  - exists []. simpl. rewrite app_nil_r. repeat split; try tauto.
    + intros t r d H. discriminate H.
    + intros [|k] t r t' r' d' H; discriminate H.
  - rewrite pollLoop_S.
    destruct (now w <? expiration).
    2:{ exists []. simpl. rewrite app_nil_r. repeat split; try tauto.
        - intros t r d H. discriminate H.
        - intros [|k] t r t' r' d' H; discriminate H. }
    set (w1 := polled a env deviceCode interval w).
    set (req := PollRequest (clientID a) (DeviceCode deviceCode)).
    assert (Ht1 : trace w1 = trace w ++
              [(now w, Slept interval); (now w + Z.max 0 interval, Sent req)])
      by reflexivity.
    assert (Hn1 : now w + Z.max 0 interval < now w1).
    { unfold w1. simpl. pose proof (Pos2Z.is_pos (latency (server env (calls w)))). lia. }
    assert (Hone : forall evs',
              requests evs' = [] -> sleeps evs' = [] ->
              let evs := (now w, Slept interval)
                         :: (now w + Z.max 0 interval, Sent req) :: evs' in
              List.length (sleeps evs) = List.length (requests evs)
              /\ (forall t r d, nth_error (requests evs) 0 = Some (t, r) ->
                                nth_error (sleeps evs) 0 = Some d ->
                                now w + Z.max 0 d <= t)
              /\ (forall k t r t' r' d',
                     nth_error (requests evs) k = Some (t, r) ->
                     nth_error (requests evs) (S k) = Some (t', r') ->
                     nth_error (sleeps evs) (S k) = Some d' ->
                     t + Z.max 0 d' < t')
              /\ (forall t r, In (t, r) (requests evs) -> r = req)).
    { intros evs' Hr Hs. simpl. rewrite Hr, Hs. simpl. repeat split.
      - intros t r d H1 H2. injection H1 as <- <-. injection H2 as <-. lia.
      - intros [|k] t r t' r' d' _ H; simpl in H; [discriminate H|].
        destruct k; discriminate H.
      - intros t r [H|[]]. injection H as _ <-. reflexivity. }
    destruct (classify (reply (server env (calls w)))) as [slow|e|tokenResp].
    + destruct (IH (if slow then Int64.add interval (Int64.mul 5 Second) else interval) w1)
        as (evs & Ht & Hlen & Hfirst & Hnext & Hreq).
      exists ((now w, Slept interval) :: (now w + Z.max 0 interval, Sent req) :: evs).
      split; [rewrite Ht, Ht1, <- app_assoc; reflexivity|].
      simpl. repeat split.
      * rewrite Hlen. reflexivity.
      * intros t r d H1 H2. injection H1 as <- <-. injection H2 as <-. lia.
      * intros [|k] t r t' r' d' H1 H2 H3; simpl in H1, H2, H3.
        -- injection H1 as <- <-.
           pose proof (Hfirst _ _ _ H2 H3). lia.
        -- exact (Hnext k t r t' r' d' H1 H2 H3).
      * intros t r [H|H]; [injection H as _ <-; reflexivity|].
        exact (Hreq t r H).
    + eexists. split; [exact Ht1|]. apply (Hone []); reflexivity.
    + destruct (cacheOrWarn_frame env tokenResp w1) as (_ & _ & evs & Ht & Hr & Hs).
      exists ((now w, Slept interval) :: (now w + Z.max 0 interval, Sent req) :: evs).
      split; [cbn [snd]; rewrite Ht, Ht1, <- app_assoc; reflexivity|].
      apply (Hone evs); assumption.
Qed.

(** The poller never polls faster than its interval: two consecutive
    poll requests of [pollForToken] are further apart than the sleep
    between them asked for, and further apart than zero when that sleep
    was not positive. *)
Theorem polls_are_spaced {C : TimeCodec}
        (a : DeviceFlowAuthenticator) (env : Env) (fuel : nat)
        (deviceCode : DeviceCodeResponse) (w : World)
        (k : nat) (t t' : Time) (r r' : Request) (d' : Duration) :
  let evs := emitted w (snd (pollForToken a env fuel deviceCode w)) in
  nth_error (requests evs) k = Some (t, r) ->
  nth_error (requests evs) (S k) = Some (t', r') ->
  nth_error (sleeps evs) (S k) = Some d' ->
  t + Z.max 0 d' < t'.
Proof.
  cbv zeta. rewrite pollForToken_eq.
  destruct (pollLoop_schedule a env deviceCode
              (now w + Int64.mul (dcExpiresIn deviceCode) Second) fuel
              (initialInterval deviceCode) w) as (evs & Ht & _ & _ & Hnext & _).
  rewrite (emitted_app _ _ _ Ht). apply Hnext.
Qed.

Lemma polls_are_spaced_witness :
  6000000000 + Z.max 0 5000000000 < 12000000000.
Proof.
  apply (polls_are_spaced (C := decimalTime) auth0 (envOf (always pendingReply)) 5
           (deviceOf 900 5) {| now := 1000000000; cacheFile := None; calls := O; trace := [] |}
           0 6000000000 12000000000
           (PollRequest DefaultClientID "D1") (PollRequest DefaultClientID "D1")
           5000000000); vm_compute; reflexivity.
Defined.

(** [pollForToken] sends nothing but poll requests for the device code
    it was given, with the client id of the authenticator, and sleeps
    exactly once before each of them. *)
Theorem polls_carry_device_code {C : TimeCodec}
        (a : DeviceFlowAuthenticator) (env : Env) (fuel : nat)
        (deviceCode : DeviceCodeResponse) (w : World) :
  let evs := emitted w (snd (pollForToken a env fuel deviceCode w)) in
  List.length (sleeps evs) = List.length (requests evs)
  /\ forall t r, In (t, r) (requests evs) ->
                 r = PollRequest (clientID a) (DeviceCode deviceCode).
Proof.
  cbv zeta. rewrite pollForToken_eq.
  destruct (pollLoop_schedule a env deviceCode
              (now w + Int64.mul (dcExpiresIn deviceCode) Second) fuel
              (initialInterval deviceCode) w) as (evs & Ht & Hlen & _ & _ & Hreq).
  rewrite (emitted_app _ _ _ Ht). split; assumption.
Qed.

(** ** Pending, then granted *)

Lemma latencies_nonneg env k : forall start, 0 <= latencies env start k.
Proof.
  induction k as [|k IH]; intros start; cbn [latencies]; [lia|].
  specialize (IH (S start)). pose proof (Pos2Z.is_pos (latency (server env start))). lia.
Qed.

Lemma pollLoop_pending_then_granted {C : TimeCodec} a env deviceCode expiration interval
      tokenResp n :
  forall fuel w,
    (forall i, (i < n)%nat ->
               classify (reply (server env (calls w + i))) = Pending false) ->
    classify (reply (server env (calls w + n))) = Granted tokenResp ->
    now w + Z.of_nat n * Z.max 0 interval + latencies env (calls w) n < expiration ->
    (n < fuel)%nat ->
    exists evs,
      pollLoop a env fuel deviceCode expiration interval w
      = (Some (Ok (trAccessToken tokenResp)),
         snd (pollLoop a env fuel deviceCode expiration interval w))
      /\ trace (snd (pollLoop a env fuel deviceCode expiration interval w)) = trace w ++ evs
      /\ List.length (requests evs) = S n
      /\ sleeps evs = repeat interval (S n).
Proof.
  induction n as [|n IH]; intros fuel w Hpend Hgrant Hdeadline Hfuel;
    (destruct fuel as [|fuel]; [lia|]).
  - rewrite Nat.add_0_r in Hgrant. simpl in Hdeadline.
    rewrite pollLoop_S.
    assert (E : (now w <? expiration) = true) by (apply Z.ltb_lt; lia).
    rewrite E, Hgrant. cbn [fst snd].
    destruct (cacheOrWarn_frame env tokenResp (polled a env deviceCode interval w))
      as (_ & _ & evs & Ht & Hr & Hs).
    eexists. split; [reflexivity|]. split.
    + rewrite Ht. cbn [polled trace]. rewrite <- app_assoc. reflexivity.
    + simpl. rewrite Hr, Hs. split; reflexivity.
  - rewrite pollLoop_S.
    pose proof (latencies_nonneg env (S n) (calls w)) as Hlat.
    rewrite Nat2Z.inj_succ, Z.mul_succ_l in Hdeadline.
    assert (Hmul : 0 <= Z.of_nat n * Z.max 0 interval)
      by (apply Z.mul_nonneg_nonneg; lia).
    assert (E : (now w <? expiration) = true) by (apply Z.ltb_lt; lia).
    rewrite E.
    pose proof (Hpend O ltac:(lia)) as H0. rewrite Nat.add_0_r in H0. rewrite H0.
    set (w1 := polled a env deviceCode interval w).
    destruct (IH fuel w1) as (evs & Hres & Ht & Hlen & Hsl).
    + intros i Hi. unfold w1. cbn [polled calls].
      replace (S (calls w) + i)%nat with (calls w + S i)%nat by lia.
      apply Hpend. lia.
    + unfold w1. cbn [polled calls].
      replace (S (calls w) + n)%nat with (calls w + S n)%nat by lia. exact Hgrant.
    + unfold w1. cbn [polled calls now].
      cbn [latencies] in Hdeadline. lia.
    + lia.
    + exists ((now w, Slept interval)
              :: (now w + Z.max 0 interval,
                  Sent (PollRequest (clientID a) (DeviceCode deviceCode))) :: evs).
      split; [rewrite Hres at 1; reflexivity|]. split.
      * rewrite Ht. unfold w1. cbn [polled trace]. rewrite <- app_assoc. reflexivity.
      * simpl. rewrite Hlen, Hsl. split; reflexivity.
Qed.

(** When the token endpoint answers the first [n] polls with
    [authorization_pending] (or with anything else that leaves the
    poller pending without slowing it down) and the next poll with a
    token, and the device code is still alive when that poll is due,
    [pollForToken] returns the access token after exactly [n + 1] poll
    requests, each after a sleep of the initial interval. *)
Theorem pending_then_granted {C : TimeCodec}
        (a : DeviceFlowAuthenticator) (env : Env) (fuel : nat)
        (deviceCode : DeviceCodeResponse) (w : World)
        (n : nat) (tokenResp : TokenResponse) :
  (forall i, (i < n)%nat ->
             classify (reply (server env (calls w + i))) = Pending false) ->
  classify (reply (server env (calls w + n))) = Granted tokenResp ->
  Z.of_nat n * Z.max 0 (initialInterval deviceCode) + latencies env (calls w) n
  < Int64.mul (dcExpiresIn deviceCode) Second ->
  (n < fuel)%nat ->
  let run := pollForToken a env fuel deviceCode w in
  fst run = Some (Ok (trAccessToken tokenResp))
  /\ List.length (requests (emitted w (snd run))) = S n
  /\ sleeps (emitted w (snd run)) = repeat (initialInterval deviceCode) (S n).
Proof.
  intros Hpend Hgrant Hdeadline Hfuel. cbv zeta. rewrite pollForToken_eq.
  destruct (pollLoop_pending_then_granted a env deviceCode
              (now w + Int64.mul (dcExpiresIn deviceCode) Second)
              (initialInterval deviceCode) tokenResp n fuel w Hpend Hgrant)
    as (evs & Hres & Ht & Hlen & Hsl); [lia|exact Hfuel|].
  rewrite (emitted_app _ _ _ Ht). rewrite Hres. cbn [fst]. auto.
Qed.

Lemma pending_then_granted_witness :
  let run := pollForToken (C := decimalTime) auth0 (envOf scenario) 5 (deviceOf 900 5)
               {| now := 1000000000; cacheFile := None; calls := 1; trace := [] |} in
  fst run = Some (Ok "T1"%string)
  /\ List.length (requests (emitted {| now := 1000000000; cacheFile := None;
                                       calls := 1; trace := [] |} (snd run))) = 3%nat
  /\ sleeps (emitted {| now := 1000000000; cacheFile := None; calls := 1; trace := [] |}
                     (snd run))
     = [5000000000; 5000000000; 5000000000].
Proof.
  apply (pending_then_granted (C := decimalTime) auth0 (envOf scenario) 5 (deviceOf 900 5)
           {| now := 1000000000; cacheFile := None; calls := 1; trace := [] |} 2
           {| trAccessToken := "T1"; TokenType := ""; ExpiresIn := 3600;
              trRefreshToken := "R1"; Scope := "" |}).
  - intros [|[|i]] Hi; [reflexivity|reflexivity|lia].
  - reflexivity.
  - vm_compute. reflexivity.
  - lia.
Defined.

(** ** The errors of the device flow and of [GetToken] *)

(** Without a device code there is no device flow: when the request for
    the device code fails, [authenticateWithDeviceFlow] returns that
    failure, wrapped, and all it has done is to send that one request; it
    has shown no prompt, opened no browser, slept and polled not at all,
    and left the cache file alone. *)
Theorem device_code_failure_stops_flow {C : TimeCodec}
        (a : DeviceFlowAuthenticator) (env : Env) (fuel : nat) (w : World) (e : error) :
  fst (requestDeviceCode a env w) = Err e ->
  fst (authenticateWithDeviceFlow a env fuel w)
  = Some (Err (ErrWrap "failed to request device code: " e))
  /\ emitted w (snd (authenticateWithDeviceFlow a env fuel w))
     = [(now w, Sent (DeviceCodeRequest (clientID a) AzureDevOpsScope))]
  /\ cacheFile (snd (authenticateWithDeviceFlow a env fuel w)) = cacheFile w.
Proof.
  intros H. rewrite authenticateWithDeviceFlow_eq. cbv zeta. rewrite H. cbn [fst snd].
  split; [reflexivity|]. split; [|reflexivity].
  apply emitted_app. reflexivity.
Qed.

Lemma device_code_failure_stops_flow_witness :
  fst (authenticateWithDeviceFlow (C := decimalTime) auth0 offline 5 world0)
  = Some (Err (ErrWrap "failed to request device code: " ErrNet))
  /\ emitted world0 (snd (authenticateWithDeviceFlow (C := decimalTime) auth0 offline 5
                                                      world0))
     = [(now world0, Sent (DeviceCodeRequest (clientID auth0) AzureDevOpsScope))]
  /\ cacheFile (snd (authenticateWithDeviceFlow (C := decimalTime) auth0 offline 5 world0))
     = cacheFile world0.
Proof.
  exact (device_code_failure_stops_flow (C := decimalTime) auth0 offline 5 world0 ErrNet
           eq_refl).
Defined.

Lemma pollLoop_errors {C : TimeCodec} a env deviceCode expiration fuel :
  forall interval w e,
    fst (pollLoop a env fuel deviceCode expiration interval w) = Some (Err e) ->
    isPollError e.
Proof.
  induction fuel as [|fuel IH]; intros interval w e H; [discriminate H|].
  rewrite pollLoop_S in H.
  destruct (now w <? expiration).
  2:{ injection H as <-. left. reflexivity. }
  unfold classify in H.
  destruct (reply (server env (calls w))) as [|status [body|]];
    try (apply IH in H; exact H).
  destruct (negb (status =? StatusOK)).
  - destruct (Unmarshal setTokenError zeroTokenError body) as [tokenErr|];
      [|apply IH in H; exact H].
    destruct (Error tokenErr =? "authorization_pending")%string;
      [apply IH in H; exact H|].
    destruct (Error tokenErr =? "slow_down")%string; [apply IH in H; exact H|].
    destruct (Error tokenErr =? "expired_token")%string.
    { injection H as <-. right. left. reflexivity. }
    destruct (Error tokenErr =? "authorization_declined")%string.
    { injection H as <-. right. right. left. reflexivity. }
    injection H as <-. right. right. right. left.
    exists (Error tokenErr), (ErrorDescription tokenErr). reflexivity.
  - destruct (Unmarshal setTokenResponse zeroTokenResponse body) as [tokenResp|].
    + discriminate H.
    + injection H as <-. right. right. right. right. reflexivity.
Qed.

Lemma requestDeviceCode_errors a env w e :
  fst (requestDeviceCode a env w) = Err e -> isDeviceCodeError e.
Proof.
  rewrite requestDeviceCode_eq. cbn [fst].
  destruct (reply (server env (calls w))) as [|status body].
  - intros H. injection H as <-. left. reflexivity.
  - destruct (negb (status =? StatusOK)).
    + intros H. injection H as <-. right. left. exists body. reflexivity.
    + destruct (Decode setDeviceCode zeroDeviceCode body); [discriminate|].
      intros H. injection H as <-. right. right. reflexivity.
Qed.

Lemma authenticateWithDeviceFlow_errors {C : TimeCodec} a env fuel w e :
  fst (authenticateWithDeviceFlow a env fuel w) = Some (Err e) ->
  (exists cause, e = ErrWrap "failed to request device code: " cause
                 /\ isDeviceCodeError cause)
  \/ (exists cause, e = ErrWrap "authentication failed: " cause /\ isPollError cause).
Proof.
  rewrite authenticateWithDeviceFlow_eq. cbv zeta.
  destruct (fst (requestDeviceCode a env w)) as [deviceCode|err] eqn:Hreq.
  - cbn [fst]. rewrite pollForToken_eq.
    destruct (fst (pollLoop a env fuel deviceCode _ _ _)) as [[token|err]|] eqn:Hpoll;
      try discriminate.
    intros H. injection H as <-. right. exists err. split; [reflexivity|].
    exact (pollLoop_errors _ _ _ _ _ _ _ _ Hpoll).
  - cbn [fst]. intros H. injection H as <-. left. exists err. split; [reflexivity|].
    exact (requestDeviceCode_errors _ _ _ _ Hreq).
Qed.

(** Every error of [GetToken] comes from the device flow: it is either
    "failed to request device code: " around a failure of that request
    (no answer, an answer other than 200 with its body, an answer that
    does not decode), or "authentication failed: " around one of the five
    ends of the poll loop.  A failure to read the cache or to refresh the
    token is never returned. *)
Theorem GetToken_errors {C : TimeCodec}
        (a : DeviceFlowAuthenticator) (env : Env) (fuel : nat) (w : World) (e : error) :
  fst (GetToken a env fuel w) = Some (Err e) ->
  (exists cause, e = ErrWrap "failed to request device code: " cause
                 /\ isDeviceCodeError cause)
  \/ (exists cause, e = ErrWrap "authentication failed: " cause /\ isPollError cause).
Proof.
  rewrite GetToken_eq.
  destruct (fst (loadCachedToken w)) as [token|err];
    [|apply authenticateWithDeviceFlow_errors].
  destruct (now w + 300000000000 <? ExpiresAt token); [discriminate|].
  destruct (negb (RefreshToken token =? "")%string);
    [|apply authenticateWithDeviceFlow_errors].
  destruct (refreshToken a env (RefreshToken token) w) as [[newToken|err] w2];
    [discriminate|apply authenticateWithDeviceFlow_errors].
Qed.

Lemma GetToken_errors_witness :
  exists cause,
    ErrWrap "failed to request device code: " ErrNet
    = ErrWrap "failed to request device code: " cause
    /\ isDeviceCodeError cause.
Proof.
  destruct (GetToken_errors (C := decimalTime) auth0 offline 3
              (cachedWorld "T1" "R1" "5" 1000)
              (ErrWrap "failed to request device code: " ErrNet) eq_refl)
    as [H|(cause & H & _)].
  - exact H.
  - discriminate H.
Defined.

(** ** From one call of [GetToken] to the next *)

Lemma saveTokenCache_then_load {C : TimeCodec} env tokenResp w :
  codec_roundtrip C ->
  fst (saveTokenCache env tokenResp w) = None ->
  now (snd (saveTokenCache env tokenResp w)) = now w
  /\ fst (loadCachedToken (snd (saveTokenCache env tokenResp w)))
     = Ok {| AccessToken := trAccessToken tokenResp;
             RefreshToken := trRefreshToken tokenResp;
             ExpiresAt := now w + Int64.mul (ExpiresIn tokenResp) Second |}.
Proof.
  intros Hcodec.
  unfold saveTokenCache, bind, MkdirAll, ret, timeNow, WriteFile, Add.
  destruct (mkdirOK env); [|discriminate].
  set (saved := {| AccessToken := trAccessToken tokenResp;
                   RefreshToken := trRefreshToken tokenResp;
                   ExpiresAt := now w + Int64.mul (ExpiresIn tokenResp) Second |}).
  destruct (MarshalIndent saved) as [data|] eqn:Hm; [|discriminate].
  destruct (writeOK env); [|discriminate].
  intros _. cbn [snd now]. split; [reflexivity|].
  unfold loadCachedToken, bind, ReadFile. cbn [cacheFile fst].
  unfold MarshalIndent in Hm.
  destruct (marshalTime (ExpiresAt saved)) as [s|] eqn:Ht; [|discriminate].
  injection Hm as <-. apply Hcodec in Ht.
  unfold Unmarshal, decodeValue, decodeFields, setTokenCache.
  change (equalFold "access_token" "access_token") with true.
  change (equalFold "refresh_token" "access_token") with false.
  change (equalFold "refresh_token" "refresh_token") with true.
  change (equalFold "expires_at" "access_token") with false.
  change (equalFold "expires_at" "refresh_token") with false.
  change (equalFold "expires_at" "expires_at") with true.
  cbn [decodeString option_map decodeTime AccessToken RefreshToken ExpiresAt
       zeroTokenCache saved].
  rewrite Ht. reflexivity.
Qed.

(** What is loaded depends on the cache file alone. *)
Lemma loadCachedToken_same_file {C : TimeCodec} (w w' : World) :
  cacheFile w' = cacheFile w ->
  fst (loadCachedToken w') = fst (loadCachedToken w).
Proof.
  intros H. unfold loadCachedToken, bind, ReadFile, ret. rewrite H.
  destruct (cacheFile w) as [data|]; [|reflexivity].
  destruct (Unmarshal setTokenCache zeroTokenCache data); reflexivity.
Qed.

(** A saved token is served for its lifetime less five minutes.  A token
    that was saved at the instant [now w] with a lifetime of
    [ExpiresIn] seconds is what [GetToken] returns in every later run
    that finds the cache file as it was saved and whose clock reads less
    than [ExpiresIn - 300] seconds more than at the save, whatever the
    network would answer: the call sends nothing and changes nothing. *)
Theorem saved_token_is_served {C : TimeCodec}
        (env : Env) (tokenResp : TokenResponse) (w : World)
        (a : DeviceFlowAuthenticator) (env' : Env) (fuel : nat) (w' : World) :
  codec_roundtrip C ->
  fst (saveTokenCache env tokenResp w) = None ->
  -9223372036 <= ExpiresIn tokenResp <= 9223372036 ->
  cacheFile w' = cacheFile (snd (saveTokenCache env tokenResp w)) ->
  now w' - now w < (ExpiresIn tokenResp - 300) * Second ->
  GetToken a env' fuel w' = (Some (Ok (trAccessToken tokenResp)), w').
Proof.
  intros Hcodec Hsave Hlife Hfile Hclock.
  destruct (saveTokenCache_then_load env tokenResp w Hcodec Hsave) as [_ Hload].
  rewrite GetToken_eq, (loadCachedToken_same_file _ _ Hfile), Hload.
  cbn [ExpiresAt AccessToken].
  rewrite mul_Second_exact by lia.
  assert (E : (now w' + 300000000000 <? now w + ExpiresIn tokenResp * Second) = true)
    by (apply Z.ltb_lt; unfold Second in *; lia).
  rewrite E. reflexivity.
Qed.

Lemma saved_token_is_served_witness :
  let tokenResp := {| trAccessToken := "T1"; TokenType := "Bearer"; ExpiresIn := 3600;
                      trRefreshToken := "R1"; Scope := "" |} in
  let w1 := snd (saveTokenCache (C := decimalTime) (envOf (always TransportError))
                                tokenResp world0) in
  let w' := {| now := 3299 * Second; cacheFile := cacheFile w1; calls := 7; trace := [] |} in
  GetToken (C := decimalTime) auth0 offline 0 w' = (Some (Ok "T1"%string), w').
Proof.
  cbv zeta.
  apply (saved_token_is_served (C := decimalTime) (envOf (always TransportError))
           {| trAccessToken := "T1"; TokenType := "Bearer"; ExpiresIn := 3600;
              trRefreshToken := "R1"; Scope := "" |} world0 auth0 offline 0).
  - exact decimalTime_roundtrip.
  - reflexivity.
  - simpl. lia.
  - reflexivity.
  - vm_compute. reflexivity.
Defined.

Lemma authenticateWithDeviceFlow_first_request {C : TimeCodec} a env fuel w :
  exists evs,
    trace (snd (authenticateWithDeviceFlow a env fuel w))
    = trace w ++ (now w, Sent (DeviceCodeRequest (clientID a) AzureDevOpsScope)) :: evs.
Proof.
  rewrite authenticateWithDeviceFlow_eq. cbv zeta.
  destruct (fst (requestDeviceCode a env w)) as [deviceCode|err].
  - cbn [snd]. rewrite pollForToken_eq.
    match goal with
    | |- context [pollLoop a env fuel deviceCode ?e ?i ?u] =>
        destruct (pollLoop_trace a env deviceCode e fuel i u) as (evs & Ht & _)
    end.
    eexists. rewrite Ht. cbn [prompted posted trace].
    rewrite <- !app_assoc. reflexivity.
  - exists []. reflexivity.
Qed.

(** Past its lifetime less five minutes a saved token is not served.
    In every run that finds the cache file as it was saved and whose
    clock reads at least [ExpiresIn - 300] seconds more than at the save,
    [GetToken] starts with a request, sent at the start of that run: a
    refresh request if a refresh token was saved with the token, and the
    request for a device code if not.  So a token with a lifetime of at
    most 300 seconds is served by no run whose clock is not behind that
    of the save. *)
Theorem short_lived_token_is_not_served {C : TimeCodec}
        (env : Env) (tokenResp : TokenResponse) (w : World)
        (a : DeviceFlowAuthenticator) (env' : Env) (fuel : nat) (w' : World) :
  codec_roundtrip C ->
  fst (saveTokenCache env tokenResp w) = None ->
  -9223372036 <= ExpiresIn tokenResp <= 9223372036 ->
  cacheFile w' = cacheFile (snd (saveTokenCache env tokenResp w)) ->
  (ExpiresIn tokenResp - 300) * Second <= now w' - now w ->
  exists rest,
    requests (emitted w' (snd (GetToken a env' fuel w')))
    = (now w',
       if (trRefreshToken tokenResp =? "")%string
       then DeviceCodeRequest (clientID a) AzureDevOpsScope
       else RefreshRequest (clientID a) (trRefreshToken tokenResp) AzureDevOpsScope)
      :: rest.
Proof.
  intros Hcodec Hsave Hlife Hfile Hclock.
  destruct (saveTokenCache_then_load env tokenResp w Hcodec Hsave) as [_ Hload].
  rewrite GetToken_eq, (loadCachedToken_same_file _ _ Hfile), Hload.
  cbn [ExpiresAt AccessToken RefreshToken].
  rewrite mul_Second_exact by lia.
  assert (E : (now w' + 300000000000 <? now w + ExpiresIn tokenResp * Second) = false)
    by (apply Z.ltb_ge; unfold Second in *; lia).
  rewrite E.
  destruct (trRefreshToken tokenResp =? "")%string; cbn [negb].
  - destruct (authenticateWithDeviceFlow_first_request a env' fuel w') as (evs & Ht).
    rewrite (emitted_app _ _ _ Ht). simpl. eexists. reflexivity.
  - rewrite refreshToken_eq. cbv zeta.
    set (req := RefreshRequest (clientID a) (trRefreshToken tokenResp) AzureDevOpsScope).
    set (w2 := posted env' req w').
    assert (Ht2 : trace w2 = trace w' ++ [(now w', Sent req)])
      by (unfold w2; cbn [posted trace]; reflexivity).
    assert (Hflow : exists rest,
              requests (emitted w' (snd (authenticateWithDeviceFlow a env' fuel w2)))
              = (now w', req) :: rest).
    { destruct (authenticateWithDeviceFlow_first_request a env' fuel w2) as (evs & Ht).
      rewrite Ht2, <- app_assoc in Ht. rewrite (emitted_app _ _ _ Ht).
      simpl. eexists. reflexivity. }
    destruct (reply (server env' (calls w'))) as [|status body]; [exact Hflow|].
    destruct (negb (status =? StatusOK)); [exact Hflow|].
    destruct (Decode setTokenResponse zeroTokenResponse body) as [newResp|];
      [|exact Hflow].
    cbn [snd].
    destruct (cacheOrWarn_frame env' newResp w2) as (_ & _ & evs & Ht & Hr & _).
    rewrite Ht2, <- app_assoc in Ht. rewrite (emitted_app _ _ _ Ht).
    simpl. rewrite Hr. eexists. reflexivity.
Qed.

Lemma short_lived_token_is_not_served_witness :
  let tokenResp := {| trAccessToken := "T1"; TokenType := "Bearer"; ExpiresIn := 3600;
                      trRefreshToken := "R1"; Scope := "" |} in
  let w1 := snd (saveTokenCache (C := decimalTime) (envOf (always TransportError))
                                tokenResp world0) in
  let w' := {| now := 3300 * Second; cacheFile := cacheFile w1; calls := 7; trace := [] |} in
  exists rest,
    requests (emitted w' (snd (GetToken (C := decimalTime) auth0 offline 3 w')))
    = (3300 * Second, RefreshRequest (clientID auth0) "R1" AzureDevOpsScope) :: rest.
Proof.
  cbv zeta.
  apply (short_lived_token_is_not_served (C := decimalTime) (envOf (always TransportError))
           {| trAccessToken := "T1"; TokenType := "Bearer"; ExpiresIn := 3600;
              trRefreshToken := "R1"; Scope := "" |} world0 auth0 offline 3).
  - exact decimalTime_roundtrip.
  - reflexivity.
  - simpl. lia.
  - reflexivity.
  - vm_compute. discriminate.
Defined.

(** ** Logout and login *)

Lemma Logout_eq env w :
  cmd.Logout env w =
  match cacheFile w with
  | None => ((["No cached credentials found."%string], None), w)
  | Some _ =>
      if removeOK env then
        ((["✓ Successfully logged out. Cached credentials have been removed."%string;
           "  You will need to re-authenticate on next run."%string], None),
         withoutCache w)
      else
        (([], Some (ErrWrap "failed to clear cached credentials: " ErrPermission)), w)
  end.
Proof.
  unfold cmd.Logout, HasCachedToken, ClearCache, bind, Stat, Remove, ret.
  destruct (cacheFile w) as [data|] eqn:Hfile; cbn; [|reflexivity].
  rewrite Hfile. destruct (removeOK env); reflexivity.
Qed.

(** [Logout] touches nothing but the cache file; it returns no error
    exactly when no cached token is left afterwards; after a logout
    without error a second logout finds nothing to clear; and when it
    does return an error, that is the wrapped failure to remove the file,
    and nothing has changed. *)
Theorem Logout_clears_or_reports (env : Env) (w : World) :
  let run := cmd.Logout env w in
  sameButFile (snd run) w
  /\ (snd (fst run) = None <-> fst (HasCachedToken (snd run)) = false)
  /\ (snd (fst run) = None ->
      cmd.Logout env (snd run)
      = ((["No cached credentials found."%string], None), snd run))
  /\ (forall e, snd (fst run) = Some e ->
                exists cause,
                  e = ErrWrap "failed to clear cached credentials: " cause
                  /\ snd run = w).
Proof.
  cbv zeta. rewrite !Logout_eq. unfold sameButFile, HasCachedToken, bind, Stat, ret.
  destruct (cacheFile w) as [data|] eqn:Hfile.
  - destruct (removeOK env); cbn; rewrite ?Hfile; cbn.
    + repeat split; intros; try discriminate; auto.
    + repeat split; intros; try discriminate; auto.
      match goal with H : Some _ = Some _ |- _ => injection H as <- end.
      eexists. split; reflexivity.
  - cbn. rewrite ?Hfile. cbn.
    repeat split; intros; try discriminate; auto.
Qed.

Lemma GetToken_no_cache {C : TimeCodec} a env fuel w :
  cacheFile w = None ->
  GetToken a env fuel w = authenticateWithDeviceFlow a env fuel w.
Proof.
  intros H. rewrite GetToken_eq.
  unfold loadCachedToken, bind, ReadFile. rewrite H. reflexivity.
Qed.

Lemma authenticateAfterClear_eq {C : TimeCodec} env fuel printed w :
  cacheFile w = None ->
  cmd.authenticateAfterClear env fuel printed w
  = (match fst (authenticateWithDeviceFlow NewDeviceFlowAuthenticator env fuel w) with
     | None => None
     | Some (Err err) =>
         Some (printed ++ ["Starting authentication..."%string; ""%string],
               Some (ErrWrap "authentication failed: " err))
     | Some (Ok _) =>
         Some (printed ++ ["Starting authentication..."%string; ""%string;
                           "You can now run 'devops-tui' to start the application."%string],
               None)
     end,
     snd (authenticateWithDeviceFlow NewDeviceFlowAuthenticator env fuel w)).
Proof.
  intros H. unfold cmd.authenticateAfterClear, bind.
  rewrite (GetToken_no_cache _ _ _ _ H).
  destruct (authenticateWithDeviceFlow NewDeviceFlowAuthenticator env fuel w)
    as [[[token|err]|] w']; reflexivity.
Qed.

(** [Login], case by case. *)
Lemma Login_eq {C : TimeCodec} env fuel w :
  cmd.Login env fuel w
  = match cacheFile w with
    | None => cmd.authenticateAfterClear env fuel [] w
    | Some _ =>
        if removeOK env then
          cmd.authenticateAfterClear env fuel
            ["Clearing existing cached credentials..."%string] (withoutCache w)
        else
          (Some (["Clearing existing cached credentials..."%string],
                 Some (ErrWrap "failed to clear cached credentials: " ErrPermission)), w)
    end.
Proof.
  unfold cmd.Login, HasCachedToken, ClearCache, bind, Stat, Remove, ret.
  destruct (cacheFile w) as [data|] eqn:Hfile; cbn; [|reflexivity].
  rewrite Hfile. destruct (removeOK env); reflexivity.
Qed.

(** [Login] never uses the cached credential.  It sends no refresh
    request; if it succeeds, its first request is the request for a
    device code; and its error is either the wrapped failure to clear the
    cache, in which case nothing was sent and nothing has changed, or the
    wrapped error of the device flow. *)
Theorem Login_forces_device_flow {C : TimeCodec} (env : Env) (fuel : nat) (w : World) :
  let run := cmd.Login env fuel w in
  filter isRefresh (requests (emitted w (snd run))) = []
  /\ (forall out, fst run = Some (out, None) ->
                  exists rest,
                    requests (emitted w (snd run))
                    = (now w, DeviceCodeRequest DefaultClientID AzureDevOpsScope) :: rest)
  /\ (forall out e, fst run = Some (out, Some e) ->
                    (exists cause,
                        e = ErrWrap "failed to clear cached credentials: " cause
                        /\ snd run = w)
                    \/ (exists cause, e = ErrWrap "authentication failed: " cause)).
Proof.
  cbv zeta. rewrite Login_eq.
  assert (Hflow : forall printed u,
            cacheFile u = None -> trace u = trace w -> now u = now w ->
            let run := cmd.authenticateAfterClear env fuel printed u in
            filter isRefresh (requests (emitted w (snd run))) = []
            /\ (forall out, fst run = Some (out, None) ->
                            exists rest,
                              requests (emitted w (snd run))
                              = (now w, DeviceCodeRequest DefaultClientID AzureDevOpsScope)
                                :: rest)
            /\ (forall out e, fst run = Some (out, Some e) ->
                    (exists cause,
                        e = ErrWrap "failed to clear cached credentials: " cause
                        /\ snd run = w)
                    \/ (exists cause, e = ErrWrap "authentication failed: " cause))).
  { intros printed u Hu Htr Hnow. cbv zeta.
    rewrite authenticateAfterClear_eq by exact Hu. cbn [fst snd].
    destruct (authenticateWithDeviceFlow_trace NewDeviceFlowAuthenticator env fuel u)
      as (evs & Ht & Hf).
    destruct (authenticateWithDeviceFlow_first_request NewDeviceFlowAuthenticator env
                fuel u) as (evs' & Ht').
    rewrite Htr in Ht, Ht'. rewrite Hnow in Ht'.
    split; [rewrite (emitted_app _ _ _ Ht); exact Hf|].
    split.
    - intros out _. rewrite (emitted_app _ _ _ Ht'). simpl. eexists. reflexivity.
    - intros out e H.
      destruct (fst (authenticateWithDeviceFlow NewDeviceFlowAuthenticator env fuel u))
        as [[token|err]|]; try discriminate H.
      injection H as _ <-. right. eexists. reflexivity. }
  destruct (cacheFile w) as [data|] eqn:Hfile.
  - destruct (removeOK env).
    + apply Hflow; reflexivity.
    + cbn [fst snd]. unfold emitted. rewrite skipn_all.
      split; [reflexivity|]. split.
      * intros out H. discriminate H.
      * intros out e H. injection H as _ <-. left. eexists. split; reflexivity.
  - apply Hflow; auto.
Qed.

(** [Login] does not depend on what the cache holds.  When the cache
    file can be removed, a login with a cached credential, valid or not,
    runs as the login without one does: the same requests, the same final
    world, the same error, and the same lines after the first one,
    "Clearing existing cached credentials...". *)
Theorem Login_like_first_login {C : TimeCodec}
        (env : Env) (fuel : nat) (w : World) (data : bytes) :
  cacheFile w = Some data ->
  removeOK env = true ->
  snd (cmd.Login env fuel w) = snd (cmd.Login env fuel (withoutCache w))
  /\ fst (cmd.Login env fuel w)
     = option_map (fun out : cmd.Outcome =>
                     ("Clearing existing cached credentials..."%string :: fst out, snd out))
                  (fst (cmd.Login env fuel (withoutCache w))).
Proof.
  intros Hfile Hrm.
  rewrite (Login_eq env fuel w), Hfile, Hrm.
  rewrite (Login_eq env fuel (withoutCache w)). cbn [withoutCache cacheFile].
  change {| now := now w; cacheFile := None; calls := calls w; trace := trace w |}
    with (withoutCache w).
  rewrite !authenticateAfterClear_eq by reflexivity. cbn [fst snd].
  split; [reflexivity|].
  destruct (fst (authenticateWithDeviceFlow NewDeviceFlowAuthenticator env fuel
                   (withoutCache w))) as [[token|err]|]; reflexivity.
Qed.

Lemma Login_like_first_login_witness :
  let w := cachedWorld "T1" "R1" "1000000000000" 0 in
  snd (cmd.Login (C := decimalTime) (envOf scenario) 10 w)
  = snd (cmd.Login (C := decimalTime) (envOf scenario) 10 (withoutCache w))
  /\ fst (cmd.Login (C := decimalTime) (envOf scenario) 10 w)
     = option_map (fun out : cmd.Outcome =>
                     ("Clearing existing cached credentials..."%string :: fst out, snd out))
                  (fst (cmd.Login (C := decimalTime) (envOf scenario) 10 (withoutCache w))).
Proof.
  exact (Login_like_first_login (C := decimalTime) (envOf scenario) 10
           (cachedWorld "T1" "R1" "1000000000000" 0) _ eq_refl eq_refl).
Defined.

(** A login against the scenario of the flow: the valid cached token is
    cleared, the device flow runs, and three lines are printed around
    it. *)
Example Login_scenario :
  let run := cmd.Login (C := decimalTime) (envOf scenario) 10
                       (cachedWorld "T0" "R0" "1000000000000" 0) in
  fst run = Some (["Clearing existing cached credentials..."%string;
                   "Starting authentication..."%string; ""%string;
                   "You can now run 'devops-tui' to start the application."%string],
                  None)
  /\ fst (loadCachedToken (C := decimalTime) (snd run))
     = Ok {| AccessToken := "T1"; RefreshToken := "R1"; ExpiresAt := 3619000000000 |}.
Proof. cbv zeta. split; vm_compute; reflexivity. Qed.

(** ** The Authorization header *)

Lemma b64_table :
  forallb (fun k => match b64index (b64char (N.of_nat k)) with
                    | Some m => N.eqb m (N.of_nat k)
                    | None => false
                    end && negb (Ascii.eqb (b64char (N.of_nat k)) "="))%bool
          (seq 0 64) = true.
Proof. vm_compute. reflexivity. Qed.

(** The 64 characters of the alphabet are told apart, and none of them is
    the padding character. *)
Lemma b64index_b64char n :
  (n < 64)%N ->
  b64index (b64char n) = Some n /\ Ascii.eqb (b64char n) "=" = false.
Proof.
  intros H.
  pose proof (proj1 (forallb_forall _ _) b64_table (N.to_nat n)) as T.
  cbv beta in T. rewrite Nnat.N2Nat.id in T.
  assert (Hin : In (N.to_nat n) (seq 0 64)) by (apply in_seq; lia).
  apply T in Hin. apply andb_true_iff in Hin as [H1 H2].
  destruct (b64index (b64char n)) as [m|]; [|discriminate H1].
  apply N.eqb_eq in H1. subst m. split; [reflexivity|].
  destruct (Ascii.eqb (b64char n) "="); [discriminate H2|reflexivity].
Qed.

Lemma string_ind3 (P : string -> Prop) :
  P EmptyString ->
  (forall a, P (String a EmptyString)) ->
  (forall a b, P (String a (String b EmptyString))) ->
  (forall a b c rest, P rest -> P (String a (String b (String c rest)))) ->
  forall s, P s.
Proof.
  intros H0 H1 H2 H3.
  fix IH 1. intros [|a [|b [|c rest]]];
    [exact H0 | apply H1 | apply H2 | apply H3; apply IH].
Qed.

Ltac euclid := zify; Z.to_euclidean_division_equations; lia.

Ltac b64_known n :=
  let H := fresh in
  assert (H : (n < 64)%N) by euclid;
  destruct (b64index_b64char n H) as [? ?]; clear H.

(** Reading back the encoding of a string gives the string. *)
Lemma DecodeString_EncodeToString s :
  DecodeString (EncodeToString s) = Some s.
Proof.
  induction s as [|a|a b|a b c rest IH] using string_ind3.
  - reflexivity.
  - cbn [EncodeToString]. cbv zeta.
    pose proof (N_ascii_bounded a) as Ha.
    remember (N_of_ascii a) as x eqn:Hx.
    b64_known ((x * 65536) / 262144)%N.
    b64_known (((x * 65536) / 4096) mod 64)%N.
    cbn [DecodeString].
    repeat match goal with H : b64index _ = Some _ |- _ => rewrite H; clear H end.
    change (Ascii.eqb "=" "=") with true. cbn [andb].
    assert (E : ((((x * 65536) / 4096) mod 64) mod 16 =? 0)%N = true)
      by (apply N.eqb_eq; euclid).
    rewrite E.
    replace ((x * 65536) / 262144 * 4 + ((x * 65536) / 4096) mod 64 / 16)%N with x
      by euclid.
    rewrite Hx, ascii_N_embedding. reflexivity.
  - cbn [EncodeToString]. cbv zeta.
    pose proof (N_ascii_bounded a) as Ha. pose proof (N_ascii_bounded b) as Hb.
    remember (N_of_ascii a) as x eqn:Hx. remember (N_of_ascii b) as y eqn:Hy.
    set (n := (x * 65536 + y * 256)%N).
    b64_known (n / 262144)%N.
    b64_known ((n / 4096) mod 64)%N.
    b64_known ((n / 64) mod 64)%N.
    cbn [DecodeString].
    repeat match goal with H : b64index _ = Some _ |- _ => rewrite H; clear H end.
    repeat match goal with H : Ascii.eqb _ _ = false |- _ => rewrite H; clear H end.
    change (Ascii.eqb "=" "=") with true. cbn [andb].
    assert (E : ((((n / 64) mod 64) mod 4) =? 0)%N = true)
      by (apply N.eqb_eq; subst n; euclid).
    rewrite E.
    replace (n / 262144 * 4 + (n / 4096) mod 64 / 16)%N with x by (subst n; euclid).
    replace (((n / 4096) mod 64) mod 16 * 16 + (n / 64) mod 64 / 4)%N with y
      by (subst n; euclid).
    rewrite Hx, Hy, !ascii_N_embedding. reflexivity.
  - cbn [EncodeToString]. cbv zeta.
    pose proof (N_ascii_bounded a) as Ha. pose proof (N_ascii_bounded b) as Hb.
    pose proof (N_ascii_bounded c) as Hc.
    remember (N_of_ascii a) as x eqn:Hx. remember (N_of_ascii b) as y eqn:Hy.
    remember (N_of_ascii c) as z eqn:Hz.
    set (n := (x * 65536 + y * 256 + z)%N).
    b64_known (n / 262144)%N.
    b64_known ((n / 4096) mod 64)%N.
    b64_known ((n / 64) mod 64)%N.
    b64_known (n mod 64)%N.
    cbn [DecodeString].
    repeat match goal with H : b64index _ = Some _ |- _ => rewrite H; clear H end.
    repeat match goal with H : Ascii.eqb _ _ = false |- _ => rewrite H; clear H end.
    cbn [andb]. rewrite IH.
    replace (n / 262144 * 4 + (n / 4096) mod 64 / 16)%N with x by (subst n; euclid).
    replace (((n / 4096) mod 64) mod 16 * 16 + (n / 64) mod 64 / 4)%N with y
      by (subst n; euclid).
    replace (((n / 64) mod 64) mod 4 * 64 + n mod 64)%N with z by (subst n; euclid).
    rewrite Hx, Hy, Hz, !ascii_N_embedding. reflexivity.
Qed.

Lemma substring_all s : String.substring 0 (String.length s) s = s.
Proof. induction s as [|c s IH]; simpl; [reflexivity|]. rewrite IH. reflexivity. Qed.

(** The header of a personal access token is a Basic credential that a
    server decodes to the empty user name, a colon and the token; the
    header of an OAuth token is no Basic credential. *)
Theorem GetAuthHeader_credential (token : string) :
  basicCredential (GetAuthHeader token true) = Some (":" ++ token)%string
  /\ basicCredential (GetAuthHeader token false) = None.
Proof.
  unfold basicCredential, GetAuthHeader. split.
  - cbv zeta. cbn [append String.prefix String.length String.substring].
    destruct (ascii_dec "B" "B") as [_|n]; [|exfalso; apply n; reflexivity].
    destruct (ascii_dec "a" "a") as [_|n]; [|exfalso; apply n; reflexivity].
    destruct (ascii_dec "s" "s") as [_|n]; [|exfalso; apply n; reflexivity].
    destruct (ascii_dec "i" "i") as [_|n]; [|exfalso; apply n; reflexivity].
    destruct (ascii_dec "c" "c") as [_|n]; [|exfalso; apply n; reflexivity].
    destruct (ascii_dec " " " ") as [_|n]; [|exfalso; apply n; reflexivity].
    cbn [Nat.sub]. rewrite Nat.sub_0_r, substring_all.
    destruct (EncodeToString (String ":" token)) eqn:E; cbn [String.prefix];
      rewrite <- E; apply DecodeString_EncodeToString.
  - cbn [append String.prefix].
    destruct (ascii_dec "B" "B") as [_|n]; [|exfalso; apply n; reflexivity].
    destruct (ascii_dec "a" "e") as [e|_]; [discriminate e|reflexivity].
Qed.

Lemma append_cancel_l (p s1 s2 : string) :
  (p ++ s1 = p ++ s2)%string -> s1 = s2.
Proof.
  induction p as [|c p IH]; simpl; intros H; [exact H|].
  injection H as H. exact (IH H).
Qed.

Lemma EncodeToString_injective s1 s2 :
  EncodeToString s1 = EncodeToString s2 -> s1 = s2.
Proof.
  intros H. apply (f_equal DecodeString) in H.
  rewrite !DecodeString_EncodeToString in H. injection H as H. exact H.
Qed.

(** Two headers are equal only for the same token of the same kind: no
    two tokens share a header, and no header of a personal access token
    is the header of an OAuth token. *)
Theorem GetAuthHeader_injective (token1 token2 : string) (isPAT1 isPAT2 : bool) :
  GetAuthHeader token1 isPAT1 = GetAuthHeader token2 isPAT2 ->
  token1 = token2 /\ isPAT1 = isPAT2.
Proof.
  unfold GetAuthHeader. destruct isPAT1, isPAT2; cbv zeta; intros H.
  - apply append_cancel_l, EncodeToString_injective, (append_cancel_l ":") in H. auto.
  - exfalso. apply (f_equal (String.get 1)) in H. cbn [append String.get] in H.
    discriminate H.
  - exfalso. apply (f_equal (String.get 1)) in H. cbn [append String.get] in H.
    discriminate H.
  - apply append_cancel_l in H. auto.
Qed.

Lemma GetAuthHeader_injective_witness :
  "abc"%string = "abc"%string /\ true = true.
Proof.
  exact (GetAuthHeader_injective "abc" "abc" true true eq_refl).
Defined.

(** ** The configuration and the client *)

Lemma Load_invariants_aux (v : config.Viper) (cfg : config.Config) :
  config.Load v = Ok cfg ->
  config.AccessToken cfg = ""%string
  /\ config.IsPAT cfg = negb (config.NeedsOAuth cfg)
  /\ (config.IsPAT cfg = true <-> config.PAT cfg <> ""%string).
Proof.
  unfold config.Load.
  destruct v as [e|e|organization project team pat theme d]; try discriminate.
  destruct (organization =? "")%string; [discriminate|].
  destruct (project =? "")%string; [discriminate|].
  destruct (team =? "")%string; [discriminate|].
  intros H. injection H as <-.
  unfold config.IsPAT, config.NeedsOAuth. cbn.
  destruct (String.eqb_spec pat "") as [->|Hpat]; cbn;
    repeat split; auto; try discriminate; try congruence.
Qed.

(** A configuration that [Load] accepts names the organization, the
    project and the team, carries no access token, and uses the PAT
    method exactly when it has a PAT, which is exactly when the device
    flow is not needed; its active token is the PAT. *)
Theorem Load_invariants (v : config.Viper) (cfg : config.Config) :
  config.Load v = Ok cfg ->
  config.Organization cfg <> ""%string
  /\ config.Project cfg <> ""%string
  /\ config.Team cfg <> ""%string
  /\ config.AccessToken cfg = ""%string
  /\ config.IsPAT cfg = negb (config.NeedsOAuth cfg)
  /\ (config.IsPAT cfg = true <-> config.PAT cfg <> ""%string)
  /\ config.GetToken cfg = config.PAT cfg.
Proof.
  unfold config.Load.
  destruct v as [e|e|organization project team pat theme d]; try discriminate.
  destruct (String.eqb_spec organization "") as [|Ho]; [discriminate|].
  destruct (String.eqb_spec project "") as [|Hp]; [discriminate|].
  destruct (String.eqb_spec team "") as [|Ht]; [discriminate|].
  intros H. injection H as <-.
  unfold config.IsPAT, config.NeedsOAuth, config.GetToken. cbn.
  destruct (String.eqb_spec pat "") as [->|Hpat]; cbn;
    repeat split; auto; try discriminate; try congruence.
Qed.

Lemma Load_invariants_witness :
  let cfg := {| config.Organization := "org"; config.Project := "proj";
                config.Team := "team"; config.PAT := "";
                config.Theme := "default";
                config.cfgDefaults := {| config.Sprint := "current";
                                         config.State := "all";
                                         config.Assigned := "me" |};
                config.cfgAuthMethod := config.AuthMethodOAuth;
                config.AccessToken := "" |} in
  config.Organization cfg <> ""%string
  /\ config.Project cfg <> ""%string
  /\ config.Team cfg <> ""%string
  /\ config.AccessToken cfg = ""%string
  /\ config.IsPAT cfg = negb (config.NeedsOAuth cfg)
  /\ (config.IsPAT cfg = true <-> config.PAT cfg <> ""%string)
  /\ config.GetToken cfg = config.PAT cfg.
Proof.
  exact (Load_invariants
           (config.Decoded "org" "proj" "team" "" "default"
              {| config.Sprint := "current"; config.State := "all";
                 config.Assigned := "me" |})
           _ eq_refl).
Defined.

(** The two ways in which the application builds its client.  For a
    loaded configuration with a PAT, [NewClient] sends the PAT as a Basic
    credential.  For one without, the token of the device flow goes into
    the configuration and into [NewClientWithToken], which sends it as a
    bearer token; [NewClient] on the configuration so updated would build
    the same client, and the device flow is then no longer needed if the
    token is not empty. *)
Theorem client_header_after_Load (v : config.Viper) (cfg : config.Config) :
  config.Load v = Ok cfg ->
  (config.NeedsOAuth cfg = false ->
   api.authHeader (api.NewClient cfg) = GetAuthHeader (config.PAT cfg) true)
  /\ (config.NeedsOAuth cfg = true ->
      forall token,
        api.authHeader (api.NewClientWithToken cfg token false)
        = GetAuthHeader token false
        /\ api.NewClient (config.SetAccessToken cfg token)
           = api.NewClientWithToken cfg token false
        /\ (token <> ""%string ->
            config.NeedsOAuth (config.SetAccessToken cfg token) = false)).
Proof.
  intros H.
  destruct (Load_invariants_aux v cfg H) as (Hat & Hpat & Hiff).
  split.
  - intros Hn. unfold api.NewClient, GetAuthHeader. cbn [api.authHeader].
    rewrite Hpat, Hn. reflexivity.
  - intros Hn token.
    assert (Hp : config.PAT cfg = ""%string).
    { unfold config.NeedsOAuth in Hn. apply andb_true_iff in Hn as [Hn _].
      apply String.eqb_eq in Hn. exact Hn. }
    split; [reflexivity|]. split.
    + unfold api.NewClient, api.NewClientWithToken, config.SetAccessToken,
        config.IsPAT, config.GetToken, config.BaseURL, config.TeamURL, config.WebURL.
      cbn. rewrite Hp. reflexivity.
    + intros Htok. unfold config.NeedsOAuth, config.SetAccessToken. cbn.
      apply String.eqb_neq in Htok. rewrite Htok. apply andb_false_r.
Qed.

Lemma client_header_after_Load_witness :
  let cfg := {| config.Organization := "org"; config.Project := "proj";
                config.Team := "team"; config.PAT := "";
                config.Theme := "default";
                config.cfgDefaults := {| config.Sprint := "current";
                                         config.State := "all";
                                         config.Assigned := "me" |};
                config.cfgAuthMethod := config.AuthMethodOAuth;
                config.AccessToken := "" |} in
  api.authHeader (api.NewClientWithToken cfg "T1" false) = "Bearer T1"%string
  /\ api.NewClient (config.SetAccessToken cfg "T1") = api.NewClientWithToken cfg "T1" false
  /\ ("T1"%string <> ""%string ->
      config.NeedsOAuth (config.SetAccessToken cfg "T1") = false).
Proof.
  exact (proj2 (client_header_after_Load
                  (config.Decoded "org" "proj" "team" "" "default"
                     {| config.Sprint := "current"; config.State := "all";
                        config.Assigned := "me" |})
                  _ eq_refl) eq_refl "T1"%string).
Defined.

(** ** The order of the requests of [GetToken] *)

Lemma requests_app tr1 tr2 : requests (tr1 ++ tr2) = requests tr1 ++ requests tr2.
Proof.
  induction tr1 as [|[t e] tr1 IH]; [reflexivity|].
  destruct e; simpl; rewrite IH; reflexivity.
Qed.

Lemma authenticateWithDeviceFlow_requests {C : TimeCodec} a env fuel w :
  exists polls,
    requests (emitted w (snd (authenticateWithDeviceFlow a env fuel w)))
    = (now w, DeviceCodeRequest (clientID a) AzureDevOpsScope) :: polls
    /\ forallb isPoll polls = true.
Proof.
  rewrite authenticateWithDeviceFlow_eq. cbv zeta.
  destruct (fst (requestDeviceCode a env w)) as [deviceCode|err].
  - cbn [snd]. rewrite pollForToken_eq.
    match goal with
    | |- context [pollLoop a env fuel deviceCode ?e ?i ?u] =>
        destruct (pollLoop_trace a env deviceCode e fuel i u) as (evs & Ht & _ & Hp)
    end.
    exists (requests evs). split; [|exact Hp].
    cbn [prompted posted trace] in Ht. rewrite <- !app_assoc in Ht.
    rewrite (emitted_app _ _ _ Ht). reflexivity.
  - exists []. split; [|reflexivity]. cbn [snd].
    assert (Ht : trace (posted env (DeviceCodeRequest (clientID a) AzureDevOpsScope) w)
                 = trace w ++ [(now w, Sent (DeviceCodeRequest (clientID a)
                                                               AzureDevOpsScope))])
      by reflexivity.
    rewrite (emitted_app _ _ _ Ht). reflexivity.
Qed.

(** The requests of one call of [GetToken] come in a fixed order: at
    most one refresh request, then at most one request for a device code,
    then poll requests only; there is no poll without a device-code
    request before it, and nothing is sent at all when the cached token
    is served. *)
Theorem GetToken_request_order {C : TimeCodec}
        (a : DeviceFlowAuthenticator) (env : Env) (fuel : nat) (w : World) :
  exists refresh deviceCode polls,
    requests (emitted w (snd (GetToken a env fuel w))) = refresh ++ deviceCode ++ polls
    /\ (refresh = []
        \/ exists refreshToken,
             refresh = [(now w, RefreshRequest (clientID a) refreshToken AzureDevOpsScope)])
    /\ (deviceCode = [] /\ polls = []
        \/ exists t, deviceCode = [(t, DeviceCodeRequest (clientID a) AzureDevOpsScope)])
    /\ forallb isPoll polls = true.
Proof.
  rewrite GetToken_eq.
  assert (Hflow : forall u pre,
            trace u = trace w ++ pre ->
            exists polls,
              requests (emitted w (snd (authenticateWithDeviceFlow a env fuel u)))
              = requests pre
                ++ [(now u, DeviceCodeRequest (clientID a) AzureDevOpsScope)] ++ polls
              /\ forallb isPoll polls = true).
  { intros u pre Hu.
    destruct (authenticateWithDeviceFlow_requests a env fuel u) as (polls & Hr & Hp).
    destruct (authenticateWithDeviceFlow_first_request a env fuel u) as (evs & Ht).
    exists polls. split; [|exact Hp].
    rewrite (emitted_app _ _ _ Ht) in Hr.
    rewrite Hu, <- app_assoc in Ht. rewrite (emitted_app _ _ _ Ht).
    rewrite requests_app, Hr. reflexivity. }
  assert (Hnone : exists refresh deviceCode polls,
            requests (emitted w w) = refresh ++ deviceCode ++ polls
            /\ (refresh = []
                \/ exists refreshToken,
                     refresh = [(now w, RefreshRequest (clientID a) refreshToken
                                                       AzureDevOpsScope)])
            /\ (deviceCode = [] /\ polls = []
                \/ exists t, deviceCode = [(t, DeviceCodeRequest (clientID a)
                                                                  AzureDevOpsScope)])
            /\ forallb isPoll polls = true).
  { exists [], [], []. unfold emitted. rewrite skipn_all.
    split; [reflexivity|]. split; [left; reflexivity|].
    split; [left; split; reflexivity|reflexivity]. }
  assert (Hdirect : exists refresh deviceCode polls,
            requests (emitted w (snd (authenticateWithDeviceFlow a env fuel w)))
            = refresh ++ deviceCode ++ polls
            /\ (refresh = []
                \/ exists refreshToken,
                     refresh = [(now w, RefreshRequest (clientID a) refreshToken
                                                       AzureDevOpsScope)])
            /\ (deviceCode = [] /\ polls = []
                \/ exists t, deviceCode = [(t, DeviceCodeRequest (clientID a)
                                                                  AzureDevOpsScope)])
            /\ forallb isPoll polls = true).
  { destruct (Hflow w [] (eq_sym (app_nil_r _))) as (polls & Hr & Hp).
    exists [], [(now w, DeviceCodeRequest (clientID a) AzureDevOpsScope)], polls.
    split; [exact Hr|]. split; [left; reflexivity|]. split; [right; eexists; reflexivity|].
    exact Hp. }
  destruct (fst (loadCachedToken w)) as [token|err]; [|exact Hdirect].
  destruct (now w + 300000000000 <? ExpiresAt token); [exact Hnone|].
  destruct (negb (RefreshToken token =? "")%string); [|exact Hdirect].
  rewrite refreshToken_eq. cbv zeta.
  set (req := RefreshRequest (clientID a) (RefreshToken token) AzureDevOpsScope).
  set (w1 := posted env req w).
  assert (Ht1 : trace w1 = trace w ++ [(now w, Sent req)]) by reflexivity.
  assert (Hafter : exists refresh deviceCode polls,
            requests (emitted w (snd (authenticateWithDeviceFlow a env fuel w1)))
            = refresh ++ deviceCode ++ polls
            /\ (refresh = []
                \/ exists refreshToken,
                     refresh = [(now w, RefreshRequest (clientID a) refreshToken
                                                       AzureDevOpsScope)])
            /\ (deviceCode = [] /\ polls = []
                \/ exists t, deviceCode = [(t, DeviceCodeRequest (clientID a)
                                                                  AzureDevOpsScope)])
            /\ forallb isPoll polls = true).
  { destruct (Hflow w1 _ Ht1) as (polls & Hr & Hp).
    exists [(now w, req)], [(now w1, DeviceCodeRequest (clientID a) AzureDevOpsScope)],
           polls.
    split; [exact Hr|]. split; [right; eexists; reflexivity|].
    split; [right; eexists; reflexivity|]. exact Hp. }
  destruct (reply (server env (calls w))) as [|status body]; [exact Hafter|].
  destruct (negb (status =? StatusOK)); [exact Hafter|].
  destruct (Decode setTokenResponse zeroTokenResponse body) as [tokenResp|];
    [|exact Hafter].
  cbn [snd].
  destruct (cacheOrWarn_frame env tokenResp w1) as (_ & _ & evs & Ht & Hr & _).
  rewrite Ht1, <- app_assoc in Ht. rewrite (emitted_app _ _ _ Ht).
  exists [(now w, req)], [], []. simpl. rewrite Hr.
  split; [reflexivity|]. split; [right; eexists; reflexivity|].
  split; [left; split; reflexivity|reflexivity].
Qed.

(** ** A token that is returned is a token that is cached *)

Lemma saveTokenCache_succeeds {C : TimeCodec} env tokenResp w :
  mkdirOK env = true -> writeOK env = true -> codec_total C ->
  fst (saveTokenCache env tokenResp w) = None.
Proof.
  intros Hm Hw Ht.
  unfold saveTokenCache, bind, MkdirAll, ret, timeNow, WriteFile, MarshalIndent.
  rewrite Hm.
  destruct (marshalTime _) as [s|] eqn:E; [|exfalso; exact (Ht _ E)].
  rewrite Hw. reflexivity.
Qed.

Lemma cacheOrWarn_loads {C : TimeCodec} env tokenResp w :
  mkdirOK env = true -> writeOK env = true -> codec_total C -> codec_roundtrip C ->
  exists cache,
    fst (loadCachedToken (cacheOrWarn env tokenResp w)) = Ok cache
    /\ AccessToken cache = trAccessToken tokenResp.
Proof.
  intros Hm Hw Ht Hr.
  pose proof (saveTokenCache_succeeds env tokenResp w Hm Hw Ht) as Hsave.
  destruct (saveTokenCache_then_load env tokenResp w Hr Hsave) as [_ Hload].
  unfold cacheOrWarn.
  destruct (saveTokenCache env tokenResp w) as [e w1]. cbn [fst snd] in *. subst e.
  eexists. split; [exact Hload|reflexivity].
Qed.

Lemma pollLoop_success {C : TimeCodec} a env deviceCode expiration fuel :
  forall interval w token,
    fst (pollLoop a env fuel deviceCode expiration interval w) = Some (Ok token) ->
    exists tokenResp u,
      trAccessToken tokenResp = token
      /\ snd (pollLoop a env fuel deviceCode expiration interval w)
         = cacheOrWarn env tokenResp u.
Proof.
  induction fuel as [|fuel IH]; intros interval w token H; [discriminate H|].
  rewrite pollLoop_S in *.
  destruct (now w <? expiration); [|discriminate H].
  destruct (classify (reply (server env (calls w)))) as [slow|e|tokenResp].
  - exact (IH _ _ _ H).
  - discriminate H.
  - injection H as <-. eexists. eexists. split; reflexivity.
Qed.

Lemma authenticateWithDeviceFlow_success {C : TimeCodec} a env fuel w token :
  fst (authenticateWithDeviceFlow a env fuel w) = Some (Ok token) ->
  exists tokenResp u,
    trAccessToken tokenResp = token
    /\ snd (authenticateWithDeviceFlow a env fuel w) = cacheOrWarn env tokenResp u.
Proof.
  rewrite authenticateWithDeviceFlow_eq. cbv zeta.
  destruct (fst (requestDeviceCode a env w)) as [deviceCode|err]; [|discriminate].
  cbn [fst snd]. rewrite pollForToken_eq.
  destruct (fst (pollLoop a env fuel deviceCode _ _ _)) as [[tok|err]|] eqn:Hpoll;
    try discriminate.
  intros H. injection H as <-.
  exact (pollLoop_success _ _ _ _ _ _ _ _ Hpoll).
Qed.

(** Where the cache can be written (the directory can be made, the file
    written and the expiry rendered), every token that [GetToken] returns
    is the access token of the credential that the cache holds when
    [GetToken] returns: the cached one that was served, or the new one
    from the refresh or from the device flow. *)
Theorem GetToken_success_is_cached {C : TimeCodec}
        (a : DeviceFlowAuthenticator) (env : Env) (fuel : nat) (w : World)
        (token : string) :
  mkdirOK env = true -> writeOK env = true ->
  codec_total C -> codec_roundtrip C ->
  fst (GetToken a env fuel w) = Some (Ok token) ->
  exists cache,
    fst (loadCachedToken (snd (GetToken a env fuel w))) = Ok cache
    /\ AccessToken cache = token.
Proof.
  intros Hm Hw Ht Hr. rewrite GetToken_eq.
  assert (Hflow : forall u,
            fst (authenticateWithDeviceFlow a env fuel u) = Some (Ok token) ->
            exists cache,
              fst (loadCachedToken (snd (authenticateWithDeviceFlow a env fuel u)))
              = Ok cache /\ AccessToken cache = token).
  { intros u H.
    destruct (authenticateWithDeviceFlow_success _ _ _ _ _ H) as (tr & v & <- & ->).
    apply cacheOrWarn_loads; assumption. }
  destruct (fst (loadCachedToken w)) as [cached|err] eqn:Hload; [|apply Hflow].
  destruct (now w + 300000000000 <? ExpiresAt cached).
  { cbn [fst snd]. intros H. injection H as <-. exists cached. auto. }
  destruct (negb (RefreshToken cached =? "")%string); [|apply Hflow].
  rewrite refreshToken_eq. cbv zeta.
  destruct (reply (server env (calls w))) as [|status body]; [apply Hflow|].
  destruct (negb (status =? StatusOK)); [apply Hflow|].
  destruct (Decode setTokenResponse zeroTokenResponse body) as [tokenResp|];
    [|apply Hflow].
  cbn [fst snd]. intros H. injection H as <-.
  apply cacheOrWarn_loads; assumption.
Qed.

Lemma decimalTime_total : codec_total decimalTime.
Proof. intros t. discriminate. Qed.

Lemma GetToken_success_is_cached_witness :
  exists cache,
    fst (loadCachedToken (C := decimalTime)
           (snd (GetToken (C := decimalTime) auth0 (envOf scenario) 10 world0)))
    = Ok cache
    /\ AccessToken cache = "T1"%string.
Proof.
  apply (GetToken_success_is_cached (C := decimalTime) auth0 (envOf scenario) 10 world0
           "T1" eq_refl eq_refl decimalTime_total decimalTime_roundtrip).
  vm_compute. reflexivity.
Defined.

(** ** The PAT comes first *)

(** [GetToken] of the configuration prefers the PAT, and
    [SetAccessToken] switches the method to OAuth without looking at the
    PAT.  So for a configuration that has a PAT, setting an access token
    makes [NewClient] send the PAT, not the access token, as a bearer
    token; the application sets an access token only when there is no
    PAT. *)
Theorem PAT_wins_over_access_token (cfg : config.Config) (token : string) :
  config.PAT cfg <> ""%string ->
  config.GetToken (config.SetAccessToken cfg token) = config.PAT cfg
  /\ config.IsPAT (config.SetAccessToken cfg token) = false
  /\ api.authHeader (api.NewClient (config.SetAccessToken cfg token))
     = GetAuthHeader (config.PAT cfg) false
  /\ config.NeedsOAuth cfg = false.
Proof.
  intros H. apply String.eqb_neq in H.
  repeat split;
    unfold api.NewClient, GetAuthHeader, config.IsPAT, config.NeedsOAuth;
    cbn; unfold config.GetToken; cbn; rewrite ?H; reflexivity.
Qed.

Lemma PAT_wins_over_access_token_witness :
  let cfg := {| config.Organization := "org"; config.Project := "proj";
                config.Team := "team"; config.PAT := "secret";
                config.Theme := "default";
                config.cfgDefaults := {| config.Sprint := "current";
                                         config.State := "all";
                                         config.Assigned := "me" |};
                config.cfgAuthMethod := config.AuthMethodPAT;
                config.AccessToken := "" |} in
  config.GetToken (config.SetAccessToken cfg "T1") = "secret"%string
  /\ config.IsPAT (config.SetAccessToken cfg "T1") = false
  /\ api.authHeader (api.NewClient (config.SetAccessToken cfg "T1"))
     = "Bearer secret"%string
  /\ config.NeedsOAuth cfg = false.
Proof.
  apply (PAT_wins_over_access_token
           {| config.Organization := "org"; config.Project := "proj";
              config.Team := "team"; config.PAT := "secret";
              config.Theme := "default";
              config.cfgDefaults := {| config.Sprint := "current";
                                       config.State := "all";
                                       config.Assigned := "me" |};
              config.cfgAuthMethod := config.AuthMethodPAT;
              config.AccessToken := "" |} "T1").
  discriminate.
Defined.
